(** * Authentication core of the Workaround.io backend

    A shallow embedding of the credential and session code of
    [src/main.py] ([hash_password], [signup], [login]) and of the [User]
    schema of [src/schemas.py], followed by the properties the
    specification states about them.

    Conventions of the embedding.
    - A Python [str] is a [string]: the text, held as its UTF-8 encoding.
      [str.encode()] is therefore the list of its bytes, [len] of an ASCII
      text is [String.length], and equality of texts is equality of strings.
    - A Python [bytes] is a [list byte].
    - A value read from a stored document is dynamically typed: [value].
    - Code that draws randomness, reads the clock, talks to the document
      store or raises runs in the monad [M]: a state over [World] that ends
      in [Return] or in [Raise], the state surviving a raise as in Python. *)

From Stdlib Require Import ZArith NArith.
From Stdlib.Strings Require Import Byte Ascii.
From Stdlib Require String.
From stdpp Require Import base strings list gmap.

(** ** Python built-ins used by the code *)

(** [bytes.hex] and [bytes.fromhex]. *)
Module bytes.

(** The sixteen digits written by [bytes.hex] and [binascii.hexlify]. *)
Definition hexdigits : string := "0123456789abcdef".

Definition hexdigit (n : N) : ascii :=
  default "0"%char (String.get (N.to_nat n) hexdigits).

(** Value of a character as a hexadecimal digit, [None] for any other
    character (in particular for every non-ASCII one). *)
Definition digit_value (c : ascii) : option N :=
  let n := N_of_ascii c in
  if (48 <=? n)%N && (n <=? 57)%N then Some (n - 48)%N
  else if (97 <=? n)%N && (n <=? 102)%N then Some (n - 87)%N
  else if (65 <=? n)%N && (n <=? 70)%N then Some (n - 55)%N
  else None.

(** ASCII white space, which [bytes.fromhex] skips between two bytes:
    tab, line feed, vertical tab, form feed, carriage return, space. *)
Definition is_space (c : ascii) : bool :=
  let n := N_of_ascii c in
  ((9 <=? n)%N && (n <=? 13)%N) || (n =? 32)%N.

Definition of_nibbles (hi lo : N) : byte :=
  default x00 (Byte.of_N (hi * 16 + lo)).

Definition hex_byte (b : byte) : string :=
  let n := Byte.to_N b in
  String (hexdigit (n / 16)) (String (hexdigit (n mod 16)) EmptyString).

(** [b.hex()] *)
Fixpoint hex (b : list byte) : string :=
  match b with
  | [] => EmptyString
  | x :: b' => hex_byte x +:+ hex b'
  end.

(** [bytes.fromhex(s)]; [None] stands for the [ValueError] it raises.
    White space is skipped before a byte, never inside one. *)
Fixpoint fromhex (s : string) : option (list byte) :=
  match s with
  | EmptyString => Some []
  | String c s' =>
      if is_space c then fromhex s'
      else
        match digit_value c, s' with
        | Some hi, String d s'' =>
            match digit_value d with
            | Some lo => cons (of_nibbles hi lo) <$> fromhex s''
            | None => None
            end
        | _, _ => None
        end
  end.

Definition is_hexdigit (c : ascii) : bool :=
  bool_decide (is_Some (digit_value c)).

End bytes.

(** [str.encode()], with its default encoding UTF-8. *)
Module str.
Definition encode (s : string) : list byte := String.list_byte_of_string s.
End str.

(** ** Dynamically typed values *)

(** What a field of a stored document can hold. An [ObjectId] is held as
    the number its twelve bytes denote, a [datetime] as its timestamp. *)
Inductive value : Type :=
  | VNone
  | VBool (b : bool)
  | VStr (s : string)
  | VObjectId (oid : N)
  | VDatetime (t : Z).

Global Instance value_eq_dec : EqDecision value.
Proof. solve_decision. Defined.

(** Truth value of an object, as [or] and [if] test it. *)
Definition truthy (v : value) : bool :=
  match v with
  | VNone => false
  | VBool b => b
  | VStr s => negb (String.eqb s EmptyString)
  | VObjectId _ => true
  | VDatetime _ => true
  end.

(** Big-endian bytes of a number, [len] of them. *)
Fixpoint be_bytes (len : nat) (n : N) : list byte :=
  match len with
  | O => []
  | S k => be_bytes k (n / 256) ++ [default x00 (Byte.of_N (n mod 256))]
  end.

(** [str(oid)] for an [ObjectId]: its twelve bytes in hexadecimal. *)
Definition ObjectId_str (oid : N) : string := bytes.hex (be_bytes 12 oid).

(** A document is a Python [dict] from field names to values. *)
Abbreviation document := (gmap string value).

(** [d.get(k)]: the field, Python's [None] when it is absent. *)
Definition get (d : document) (k : string) : value := default VNone (d !! k).

(** ** Exceptions, the world and the monad of effects *)

(** The exceptions the code can end in. [HTTPException] is raised by the
    endpoints themselves; [ValueError] and [TypeError] come out of
    [bytes.fromhex] and of subscripting [None] and are caught nowhere.
    [StorageFault] is the fault of the document store, see [database]. *)
Inductive exn : Type :=
  | HTTPException (status_code : Z) (detail : string)
  | ValueError
  | TypeError
  | StorageFault.

Global Instance exn_eq_dec : EqDecision exn.
Proof. solve_decision. Defined.

Inductive outcome (A : Type) : Type :=
  | Return (a : A)
  | Raise (e : exn).
Arguments Return {A} a.
Arguments Raise {A} e.

(** Modelled from the spec: the stored form of a record of the document
    store, whose module [database] is not part of the sources. Every stored
    record carries the identifier the store generated for it. *)
Record stored : Type := { _id : N; fields : document }.

(** Modelled from the spec: the document store behind the global [db] of the
    missing module [database]. It is reachable or not, holds its collections
    by name, each in insertion order, and hands out identifiers. *)
Record Database : Type := {
  reachable : bool;
  collections : gmap string (list stored);
  next_oid : N
}.

(** Everything outside the code that it reads or changes: the global [db]
    ([None] when no store was configured), the bytes the operating system's
    random source will deliver and how many were drawn, the readings the UTC
    clock will give and how many were taken. *)
Record World : Type := {
  db : option Database;
  urandom : nat -> byte;
  drawn : nat;
  utc_clock : nat -> Z;
  clock_reads : nat
}.

Definition set_db (d : option Database) (w : World) : World :=
  {| db := d; urandom := urandom w; drawn := drawn w;
     utc_clock := utc_clock w; clock_reads := clock_reads w |}.

Definition set_drawn (n : nat) (w : World) : World :=
  {| db := db w; urandom := urandom w; drawn := n;
     utc_clock := utc_clock w; clock_reads := clock_reads w |}.

Definition set_clock_reads (n : nat) (w : World) : World :=
  {| db := db w; urandom := urandom w; drawn := drawn w;
     utc_clock := utc_clock w; clock_reads := n |}.

Definition M (A : Type) : Type := World -> outcome A * World.

Global Instance M_ret : MRet M := fun A (a : A) w => (Return a, w).

Global Instance M_bind : MBind M := fun A B (f : A -> M B) (m : M A) w =>
  match m w with
  | (Return a, w') => f a w'
  | (Raise e, w') => (Raise e, w')
  end.

Global Instance M_fmap : FMap M := fun A B (f : A -> B) (m : M A) w =>
  match m w with
  | (Return a, w') => (Return (f a), w')
  | (Raise e, w') => (Raise e, w')
  end.

Definition raise {A : Type} (e : exn) : M A := fun w => (Raise e, w).

(** ** Library calls with an effect *)

Module secrets.

(** The next [nbytes] bytes of the random source. *)
Definition token_bytes (nbytes : nat) : M (list byte) := fun w =>
  (Return (List.map (fun i => urandom w (drawn w + i)) (seq 0 nbytes)),
   set_drawn (drawn w + nbytes) w).

(** [secrets.token_hex(nbytes)]: that many random bytes, in hexadecimal. *)
Definition token_hex (nbytes : nat) : M string :=
  bytes.hex <$> token_bytes nbytes.

End secrets.

Module datetime.

(** [datetime.now(timezone.utc)]: the next reading of the clock. *)
Definition now : M Z := fun w =>
  (Return (utc_clock w (clock_reads w)), set_clock_reads (S (clock_reads w)) w).

End datetime.

(** [hashlib], of which the code uses one function:
    [pbkdf2_hmac(hash_name, password, salt, iterations)], the derived key. *)
Class Hashlib : Type := {
  pbkdf2_hmac : string -> list byte -> list byte -> N -> list byte
}.

(** Pydantic's [BaseModel], as far as the store needs it: [model_dump]. *)
Class BaseModel (A : Type) : Type := {
  model_dump : A -> document
}.

(** Modelled from the spec: the module [database], which the sources import
    ([db], [create_document]) but do not contain. The spec gives the store
    two contracts, [findOne(collection, filter) -> record | null] and
    [insertOne(collection, record) -> generatedId], and lets every fault of
    the store end the operation at once. *)
Module database.

(** Modelled from the spec: the filter of [findOne]. A record matches when
    it has every field of the filter with the filter's value. *)
Definition matches (flt : document) (r : stored) : bool :=
  bool_decide (map_Forall (fun k v => fields r !! k = Some v) flt).

(** Modelled from the spec: [record | null], the first record that matches
    in the order of insertion. *)
Fixpoint first_match (flt : document) (rs : list stored) : option stored :=
  match rs with
  | [] => None
  | r :: rs' => if matches flt r then Some r else first_match flt rs'
  end.

(** Modelled from the spec: the records of a collection; a collection that
    was never written is empty. *)
Definition collection (d : Database) (name : string) : list stored :=
  default [] (collections d !! name).

(** Modelled from the spec: the store after [insertOne], the record at the
    end of its collection under the next identifier. *)
Definition insert (name : string) (doc : document) (d : Database) : Database :=
  {| reachable := reachable d;
     collections :=
       <[name := collection d name ++ [{| _id := next_oid d; fields := doc |}]]>
         (collections d);
     next_oid := (next_oid d + 1)%N |}.

(** Modelled from the spec: [db is None], for a [db] that is [None] when no
    store was configured. *)
Definition db_is_None : M bool := fun w =>
  (Return (match db w with None => true | Some _ => false end), w).

(** Modelled from the spec: the truth value of [db], as [... if db else
    ...] tests it. [None] is false; a store, of which the missing module
    would say more, counts as true like any object. *)
Definition db_truth : M bool := fun w =>
  (Return (match db w with None => false | Some _ => true end), w).

(** Modelled from the spec: [db[name]], the collection of that name.
    [None] has no subscript: [TypeError]. *)
Definition getitem (name : string) : M string := fun w =>
  match db w with
  | None => (Raise TypeError, w)
  | Some _ => (Return name, w)
  end.

(** Modelled from the spec: [findOne(collection, filter)], the first record
    of the collection that matches, a storage fault when the store does not
    answer. *)
Definition find_one (coll : string) (flt : document) : M (option stored) :=
  fun w =>
  match db w with
  | None => (Raise TypeError, w)
  | Some d =>
      if reachable d then (Return (first_match flt (collection d coll)), w)
      else (Raise StorageFault, w)
  end.

(** Modelled from the spec: [insertOne(collection, record)]. The record
    goes to the end of the collection under a newly generated identifier,
    which is returned; a storage fault when the store does not answer. *)
Definition insert_one (coll : string) (doc : document) : M value := fun w =>
  match db w with
  | None => (Raise TypeError, w)
  | Some d =>
      if reachable d
      then (Return (VObjectId (next_oid d)), set_db (Some (insert coll doc d)) w)
      else (Raise StorageFault, w)
  end.

(** Modelled from the spec: [create_document(collection_name, data)] of the
    missing module, as [insertOne] of the model's fields that returns the
    generated identifier; without a store, or with one that does not
    answer, a storage fault. *)
Definition create_document {A : Type} `{BaseModel A}
    (collection_name : string) (data : A) : M value := fun w =>
  match db w with
  | None => (Raise StorageFault, w)
  | Some _ => insert_one collection_name (model_dump data) w
  end.

End database.

(** ** [src/schemas.py] *)

Module User.

(** The [User] model: the users collection. *)
Record t : Type := {
  name : string;
  email : string;
  password_hash : string;
  password_salt : string;
  avatar : option string;
  role : string;
  is_active : bool
}.

(** [User(name=..., email=..., password_hash=..., password_salt=...)]: the
    other fields take their defaults. *)
Definition make (name email password_hash password_salt : string) : t :=
  {| name := name; email := email;
     password_hash := password_hash; password_salt := password_salt;
     avatar := None; role := "worker"; is_active := true |}.

(** [u.model_dump()]: the seven fields, each under its name. *)
Definition dump (u : t) : document :=
  {[ "name" := VStr (name u);
     "email" := VStr (email u);
     "password_hash" := VStr (password_hash u);
     "password_salt" := VStr (password_salt u);
     "avatar" := match avatar u with Some a => VStr a | None => VNone end;
     "role" := VStr (role u);
     "is_active" := VBool (is_active u) ]}.

End User.

Global Instance User_BaseModel : BaseModel User.t :=
  {| model_dump := User.dump |}.

(** ** [src/main.py] *)

(** The request bodies, as pydantic hands them to the endpoints: every
    field a validated string. *)
Module SignupRequest.
Record t : Type := { name : string; email : string; password : string }.
End SignupRequest.

Module LoginRequest.
Record t : Type := { email : string; password : string }.
End LoginRequest.

(** The dictionary both endpoints return. [login] fills [name] and [email]
    from the stored record, whatever it holds. *)
Module AuthResponse.
Record t : Type := { token : string; name : value; email : value }.
End AuthResponse.

(** [record.get(k)] on the dictionary the store returns for a record:
    its identifier under ["_id"], its fields under their names. *)
Definition record_get (r : stored) (k : string) : value :=
  if bool_decide (k = "_id") then VObjectId (_id r) else get (fields r) k.

(** The session document both endpoints insert. *)
Definition session_doc (user_id : value) (token : string) (created_at : Z)
    : document :=
  {[ "user_id" := user_id;
     "token" := VStr token;
     "created_at" := VDatetime created_at ]}.

Section Auth.
Context `{Hashlib}.

(** [hash_password(password, salt=None)]. The salt that is returned is the
    string [bytes.fromhex] accepted. *)
Definition hash_password (password : string) (salt : value)
    : M (string * string) :=
  salt ← (if truthy salt then mret salt else VStr <$> secrets.token_hex 16);
  match salt with
  | VStr s =>
      match bytes.fromhex s with
      | Some raw =>
          let pwd_hash :=
            pbkdf2_hmac "sha256" (str.encode password) raw 100000 in
          mret (s, bytes.hex pwd_hash)
      | None => raise ValueError
      end
  | _ => raise TypeError
  end.

(** [signup(payload)]. A record the store returns is a non-empty dictionary,
    so [if existing] is the test that one was found. *)
Definition signup (payload : SignupRequest.t) : M AuthResponse.t :=
  has_db ← database.db_truth;
  existing ← (if has_db : bool
              then user ← database.getitem "user";
                   database.find_one user
                     {[ "email" := VStr (SignupRequest.email payload) ]}
              else mret None);
  match existing with
  | Some _ => raise (HTTPException 400 "Email already in use")
  | None =>
      '(salt, pwd_hash) ← hash_password (SignupRequest.password payload) VNone;
      let user :=
        User.make (SignupRequest.name payload) (SignupRequest.email payload)
                  pwd_hash salt in
      user_id ← database.create_document "user" user;
      token ← secrets.token_hex 24;
      session ← database.getitem "session";
      created_at ← datetime.now;
      _ ← database.insert_one session (session_doc user_id token created_at);
      mret {| AuthResponse.token := token;
              AuthResponse.name := VStr (User.name user);
              AuthResponse.email := VStr (User.email user) |}
  end.

(** [login(payload)]. *)
Definition login (payload : LoginRequest.t) : M AuthResponse.t :=
  no_db ← database.db_is_None;
  if no_db : bool then raise (HTTPException 500 "Database not available")
  else
    user ← database.getitem "user";
    record ← database.find_one user
               {[ "email" := VStr (LoginRequest.email payload) ]};
    match record with
    | None => raise (HTTPException 401 "Invalid credentials")
    | Some record =>
        let salt := record_get record "password_salt" in
        '(_, verify_hash) ← hash_password (LoginRequest.password payload) salt;
        if bool_decide (VStr verify_hash ≠ record_get record "password_hash")
        then raise (HTTPException 401 "Invalid credentials")
        else
          token ← secrets.token_hex 24;
          session ← database.getitem "session";
          let user_id := VStr (ObjectId_str (_id record)) in
          created_at ← datetime.now;
          _ ← database.insert_one session
                (session_doc user_id token created_at);
          mret {| AuthResponse.token := token;
                  AuthResponse.name := record_get record "name";
                  AuthResponse.email := record_get record "email" |}
    end.

End Auth.

(** ** Error kinds *)

(** The error kinds of the specification. *)
Inductive ErrorKind : Type :=
  | ValidationError
  | EmailInUse
  | InvalidCredentials
  | StorageUnavailable.

(** The kind under which an exception of the code reaches the HTTP layer:
    the three responses the endpoints raise themselves and the fault of the
    store. Any other exception is caught nowhere and has no kind. *)
Definition error_kind (e : exn) : option ErrorKind :=
  match e with
  | HTTPException status_code detail =>
      if bool_decide (status_code = 400%Z ∧ detail = "Email already in use")
      then Some EmailInUse
      else if bool_decide (status_code = 401%Z ∧ detail = "Invalid credentials")
      then Some InvalidCredentials
      else if bool_decide
                (status_code = 500%Z ∧ detail = "Database not available")
      then Some StorageUnavailable
      else None
  | StorageFault => Some StorageUnavailable
  | ValueError | TypeError => None
  end.

(** ** Predicates of the specification *)

(** A string [bytes.fromhex] accepts. *)
Definition well_formed_hex (s : string) : Prop := is_Some (bytes.fromhex s).

(** A string of hexadecimal digits only. *)
Fixpoint all_hexdigits (s : string) : bool :=
  match s with
  | EmptyString => true
  | String c s' => bytes.is_hexdigit c && all_hexdigits s'
  end.

(** The bytes the random source delivers from position [pos] on. *)
Definition random_bytes (w : World) (pos nbytes : nat) : list byte :=
  List.map (fun i => urandom w (pos + i)) (seq 0 nbytes).

(** The derived key as the specification describes it: PBKDF2-HMAC-SHA256,
    100,000 iterations, over the UTF-8 encoding of the password and the raw
    bytes of the salt, in hexadecimal. *)
Definition derived_key_hex `{Hashlib} (password : string) (raw_salt : list byte)
    : string :=
  bytes.hex (pbkdf2_hmac "sha256" (str.encode password) raw_salt 100000).

(** The filter both endpoints look a user up with. *)
Definition by_email (email : string) : document := {[ "email" := VStr email ]}.

(** The users and the sessions of a world; none without a store. *)
Definition users (w : World) : list stored :=
  match db w with Some d => database.collection d "user" | None => [] end.

Definition sessions (w : World) : list stored :=
  match db w with Some d => database.collection d "session" | None => [] end.

(** The store cannot be reached: there is none, or it does not answer. *)
Definition store_unreachable (w : World) : Prop :=
  match db w with None => True | Some d => reachable d = false end.

(** ** What the endpoints leave behind *)

(** The user [signup] builds in world [w]: the salt is the next sixteen
    random bytes, the hash the key derived under them. *)
Definition signup_user `{Hashlib} (payload : SignupRequest.t) (w : World)
    : User.t :=
  let raw := random_bytes w (drawn w) 16 in
  User.make (SignupRequest.name payload) (SignupRequest.email payload)
            (derived_key_hex (SignupRequest.password payload) raw)
            (bytes.hex raw).

(** The token [signup] mints in world [w]: the twenty-four random bytes
    after the salt. *)
Definition signup_token (w : World) : string :=
  bytes.hex (random_bytes w (drawn w + 16) 24).

(** The world a successful [signup] leaves, [d] being the store before. *)
Definition signup_world `{Hashlib} (payload : SignupRequest.t) (d : Database)
    (w : World) : World :=
  {| db := Some (database.insert "session"
                   (session_doc (VObjectId (next_oid d)) (signup_token w)
                      (utc_clock w (clock_reads w)))
                   (database.insert "user" (User.dump (signup_user payload w)) d));
     urandom := urandom w;
     drawn := drawn w + 16 + 24;
     utc_clock := utc_clock w;
     clock_reads := S (clock_reads w) |}.

(** The token [login] mints once the password was verified in world [w1]. *)
Definition login_token (w1 : World) : string :=
  bytes.hex (random_bytes w1 (drawn w1) 24).

(** The world a successful [login] of the stored user [record] leaves,
    [d] being the store before and [w1] the world after verification. *)
Definition login_world (record : stored) (d : Database) (w1 : World) : World :=
  {| db := Some (database.insert "session"
                   (session_doc (VStr (ObjectId_str (_id record)))
                      (login_token w1) (utc_clock w1 (clock_reads w1)))
                   d);
     urandom := urandom w1;
     drawn := drawn w1 + 24;
     utc_clock := utc_clock w1;
     clock_reads := S (clock_reads w1) |}.

(** ** Requests in sequence *)

(** A request to one of the two endpoints of the core. *)
Inductive request : Type :=
  | Signup (payload : SignupRequest.t)
  | Login (payload : LoginRequest.t).

(** The world after a request was handled, whatever its outcome. *)
Definition handle `{Hashlib} (req : request) (w : World) : World :=
  match req with
  | Signup payload => (signup payload w).2
  | Login payload => (login payload w).2
  end.

(** The world after a sequence of requests. *)
Fixpoint serve `{Hashlib} (reqs : list request) (w : World) : World :=
  match reqs with
  | [] => w
  | req :: reqs' => serve reqs' (handle req w)
  end.

(** ** Sample data for concrete runs *)

(** A key derivation to run the code with on concrete inputs: the salt
    followed by the password. It stands in for PBKDF2 in concrete runs only;
    every theorem below holds for an arbitrary [Hashlib]. *)
Definition sample_hashlib : Hashlib :=
  {| pbkdf2_hmac := fun _ password salt _ => salt ++ password |}.

(** A reachable, empty store. *)
Definition sample_store : Database :=
  {| reachable := true; collections := ∅; next_oid := 1 |}.

(** The first bytes of the sample random source: they count upwards. *)
Definition sample_bytes : list byte :=
  List.map (fun n => default x00 (Byte.of_N (N.of_nat n))) (seq 0 64).

(** The first readings of the sample clock. *)
Definition sample_clock : list Z :=
  [1700000000; 1700000060; 1700000120; 1700000180]%Z.

(** A world over the empty store. *)
Definition sample_world : World :=
  {| db := Some sample_store;
     urandom := fun i => nth i sample_bytes x00;
     drawn := 0;
     utc_clock := fun i => nth i sample_clock 0%Z;
     clock_reads := 0 |}.

Definition ann_signup : SignupRequest.t :=
  {| SignupRequest.name := "Ann";
     SignupRequest.email := "a@x.com";
     SignupRequest.password := "secret123" |}.

Definition ann_login : LoginRequest.t :=
  {| LoginRequest.email := "a@x.com"; LoginRequest.password := "secret123" |}.

Definition ann_wrong_password : LoginRequest.t :=
  {| LoginRequest.email := "a@x.com"; LoginRequest.password := "wrong" |}.

Definition bob_login : LoginRequest.t :=
  {| LoginRequest.email := "b@x.com"; LoginRequest.password := "hunter2" |}.

(** The world after Ann signed up in the sample world. *)
Definition world_with_ann : World :=
  (@signup sample_hashlib ann_signup sample_world).2.

(** A stored user whose account was deactivated: Bob, salt [00ff]. *)
Definition bob_deactivated : stored :=
  {| _id := 7;
     fields :=
       <["is_active" := VBool false]>
         (User.dump
            (User.make "Bob" "b@x.com"
               (@derived_key_hex sample_hashlib "hunter2" [x00; xff])
               "00ff")) |}.

Definition world_with_bob : World :=
  set_db (Some {| reachable := true;
                  collections := {[ "user" := [bob_deactivated] ]};
                  next_oid := 8 |})
         sample_world.



(** ** The contact form *)

Module ContactMessage.

(** The [ContactMessage] model of [src/schemas.py]. *)
Record t : Type := {
  name : string;
  email : string;
  message : string;
  company : option string;
  topic : option string
}.

(** [m.model_dump()]: the five fields, [None] for one that was left out. *)
Definition dump (m : t) : document :=
  {[ "name" := VStr (name m);
     "email" := VStr (email m);
     "message" := VStr (message m);
     "company" := match company m with Some c => VStr c | None => VNone end;
     "topic" := match topic m with Some c => VStr c | None => VNone end ]}.

End ContactMessage.

Global Instance ContactMessage_BaseModel : BaseModel ContactMessage.t :=
  {| model_dump := ContactMessage.dump |}.

(** The body of a contact request, as pydantic hands it to the endpoint. *)
Module ContactRequest.
Record t : Type := {
  name : string;
  email : string;
  message : string;
  company : option string;
  topic : option string
}.
End ContactRequest.

(** The dictionary [submit_contact] returns. *)
Module ContactResponse.
Record t : Type := { id : value; status : string }.
End ContactResponse.

(** [ContactMessage] built from the keywords of [payload.model_dump()]:
    the two models have the same fields, each goes over as it is. *)
Definition ContactMessage_of (payload : ContactRequest.t) : ContactMessage.t :=
  {| ContactMessage.name := ContactRequest.name payload;
     ContactMessage.email := ContactRequest.email payload;
     ContactMessage.message := ContactRequest.message payload;
     ContactMessage.company := ContactRequest.company payload;
     ContactMessage.topic := ContactRequest.topic payload |}.

(** [submit_contact(payload)]. *)
Definition submit_contact (payload : ContactRequest.t) : M ContactResponse.t :=
  let msg := ContactMessage_of payload in
  _id ← database.create_document "contactmessage" msg;
  mret {| ContactResponse.id := _id; ContactResponse.status := "received" |}.

(** The contact messages of a world; none without a store. *)
Definition contact_messages (w : World) : list stored :=
  match db w with
  | Some d => database.collection d "contactmessage"
  | None => []
  end.

(** ** The blog feed *)

Module BlogPost.

(** The [BlogPost] model of [src/schemas.py]. *)
Record t : Type := {
  title : string;
  slug : string;
  excerpt : string;
  content : string;
  cover_image : option string;
  tags : list string;
  published_at : option Z;
  author : option string
}.

End BlogPost.

(** [list_blog] reads documents of any shape. Their values are of a type
    [V] of Python objects with its [None] and its truth value; the module
    [database], which is not part of the sources, supplies [get_documents],
    and pydantic the validation of [BlogPost] built from the keywords of a
    document: both are parameters. *)
Section Blog.
Context {V : Type}.
Variable py_None : V.
Variable py_truth : V -> bool.
Variable get_documents : string -> gmap string V -> nat -> M (list (gmap string V)).
Variable BlogPost_validate : gmap string V -> outcome BlogPost.t.

(** The body of the loop before the validation: [d.pop("_id", None)], then
    [if not d.get("published_at"): d["published_at"] = None]. *)
Definition clean_document (d : gmap string V) : gmap string V :=
  let d := delete "_id" d in
  if negb (py_truth (default py_None (d !! "published_at")))
  then <["published_at" := py_None]> d
  else d.

(** The loop of [list_blog] over the documents that are left, [results]
    holding the posts so far. *)
Fixpoint list_blog_loop (docs : list (gmap string V)) (results : list BlogPost.t)
    : M (list BlogPost.t) :=
  match docs with
  | [] => mret results
  | d :: docs' =>
      match BlogPost_validate (clean_document d) with
      | Return post => list_blog_loop docs' (results ++ [post])
      | Raise e => raise e
      end
  end.

(** [list_blog()]. *)
Definition list_blog : M (list BlogPost.t) :=
  docs ← get_documents "blogpost" ∅ 20;
  list_blog_loop docs [].

End Blog.

(** ** Further predicates *)

(** The hexadecimal digits of a string, counted. *)
Fixpoint count_hexdigits (s : string) : nat :=
  match s with
  | EmptyString => 0
  | String c s' =>
      (if bytes.is_hexdigit c then 1 else 0) + count_hexdigits s'
  end.

(** A string of hexadecimal digits and ASCII white space only. *)
Fixpoint hexdigits_or_spaces (s : string) : bool :=
  match s with
  | EmptyString => true
  | String c s' =>
      (bytes.is_hexdigit c || bytes.is_space c) && hexdigits_or_spaces s'
  end.

(** A character with an ASCII lower-case letter turned into upper case. *)
Definition ascii_upper (c : ascii) : ascii :=
  let n := N_of_ascii c in
  if (97 <=? n)%N && (n <=? 122)%N then ascii_of_N (n - 32) else c.

(** A string with its ASCII letters in upper case. *)
Fixpoint upper_ascii (s : string) : string :=
  match s with
  | EmptyString => EmptyString
  | String c s' => String (ascii_upper c) (upper_ascii s')
  end.

(** ** Further sample data *)

Definition carol_signup : SignupRequest.t :=
  {| SignupRequest.name := "Carol";
     SignupRequest.email := "c@x.com";
     SignupRequest.password := "opensesame" |}.

(** A stored user whose salt is not hexadecimal. *)
Definition dan_corrupt : stored :=
  {| _id := 9;
     fields := User.dump (User.make "Dan" "d@x.com" "00" "zz") |}.

Definition world_with_dan : World :=
  set_db (Some {| reachable := true;
                  collections := {[ "user" := [dan_corrupt] ]};
                  next_oid := 10 |})
         sample_world.

Definition dan_login : LoginRequest.t :=
  {| LoginRequest.email := "d@x.com"; LoginRequest.password := "anything" |}.

Definition ann_contact : ContactRequest.t :=
  {| ContactRequest.name := "Ann";
     ContactRequest.email := "a@x.com";
     ContactRequest.message := "Hello";
     ContactRequest.company := None;
     ContactRequest.topic := Some "sales" |}.

(** A blog document as a store returns it, over the values of [value]. *)
Definition sample_blog_document : document :=
  {[ "_id" := VObjectId 3; "title" := VStr "Hello"; "published_at" := VStr "" ]}.

(** A validation to run [list_blog] with on concrete documents: a post
    needs a title that is a string. It stands in for pydantic's. *)
Definition sample_validate (d : document) : outcome BlogPost.t :=
  match d !! "title" with
  | Some (VStr t) =>
      Return {| BlogPost.title := t; BlogPost.slug := t;
                BlogPost.excerpt := EmptyString; BlogPost.content := EmptyString;
                BlogPost.cover_image := None; BlogPost.tags := [];
                BlogPost.published_at := None; BlogPost.author := None |}
  | _ => Raise ValueError
  end.

(** A [get_documents] that finds the sample document and one without a
    title. *)
Definition sample_get_documents (name : string) (flt : document) (limit : nat)
    : M (list document) :=
  mret [sample_blog_document; {[ "slug" := VStr "untitled" ]}].

(** ** Hexadecimal encoding *)

Section Hex.

Lemma fromhex_hex_byte (b : byte) (s : string) :
  bytes.fromhex (bytes.hex_byte b +:+ s) = cons b <$> bytes.fromhex s.
Proof. destruct b; reflexivity. Qed.

(** Decoding what [hex] wrote gives the bytes back. *)
Lemma fromhex_hex (b : list byte) : bytes.fromhex (bytes.hex b) = Some b.
Proof.
  induction b as [|x b IH]; [reflexivity|].
  cbn [bytes.hex]. rewrite fromhex_hex_byte, IH. reflexivity.
Qed.

Lemma length_hex_byte (b : byte) (s : string) :
  String.length (bytes.hex_byte b +:+ s) = S (S (String.length s)).
Proof. reflexivity. Qed.

Lemma length_hex (b : list byte) :
  String.length (bytes.hex b) = 2 * length b.
Proof.
  induction b as [|x b IH]; [reflexivity|].
  cbn [bytes.hex length]. rewrite length_hex_byte, IH. lia.
Qed.

Lemma all_hexdigits_hex_byte (b : byte) (s : string) :
  all_hexdigits (bytes.hex_byte b +:+ s) = all_hexdigits s.
Proof. destruct b; reflexivity. Qed.

Lemma all_hexdigits_hex (b : list byte) : all_hexdigits (bytes.hex b) = true.
Proof.
  induction b as [|x b IH]; [reflexivity|].
  cbn [bytes.hex]. rewrite all_hexdigits_hex_byte. exact IH.
Qed.

Lemma hex_inj (b1 b2 : list byte) : bytes.hex b1 = bytes.hex b2 -> b1 = b2.
Proof.
  intros E. apply (f_equal bytes.fromhex) in E.
  rewrite !fromhex_hex in E. congruence.
Qed.

Lemma hex_nonempty (b : list byte) : b ≠ [] -> bytes.hex b ≠ EmptyString.
Proof. intros Hb E. apply Hb, hex_inj. exact E. Qed.

Lemma length_random_bytes (w : World) (pos n : nat) :
  length (random_bytes w pos n) = n.
Proof. unfold random_bytes. rewrite List.length_map, List.length_seq. done. Qed.

Lemma truthy_VStr (s : string) : truthy (VStr s) = true <-> s ≠ EmptyString.
Proof.
  cbn. destruct (String.eqb_spec s EmptyString); cbn; split; congruence.
Qed.

End Hex.

(** ** [hash_password] *)

Section HashPassword.
Context `{Hashlib}.

(** The state after [nbytes] more random bytes were drawn. *)
Lemma token_hex_run (nbytes : nat) (w : World) :
  secrets.token_hex nbytes w =
    (Return (bytes.hex (random_bytes w (drawn w) nbytes)),
     set_drawn (drawn w + nbytes) w).
Proof. reflexivity. Qed.

(** A salt that is given and not empty is used as it is: nothing is drawn. *)
Lemma hash_password_supplied (password s : string) (raw : list byte) (w : World) :
  s ≠ EmptyString ->
  bytes.fromhex s = Some raw ->
  hash_password password (VStr s) w =
    (Return (s, derived_key_hex password raw), w).
Proof.
  intros Hs Hraw. apply truthy_VStr in Hs.
  unfold hash_password. rewrite Hs.
  cbv [mbind M_bind mret M_ret]. rewrite Hraw. reflexivity.
Qed.

(** A salt that is given, not empty and not hexadecimal: [ValueError]. *)
Lemma hash_password_malformed (password s : string) (w : World) :
  s ≠ EmptyString ->
  bytes.fromhex s = None ->
  hash_password password (VStr s) w = (Raise ValueError, w).
Proof.
  intros Hs Hraw. apply truthy_VStr in Hs.
  unfold hash_password. rewrite Hs.
  cbv [mbind M_bind mret M_ret]. rewrite Hraw. reflexivity.
Qed.

(** A salt that is omitted, or false as [or] sees it (the empty string among
    them): sixteen fresh bytes are drawn, and they are the salt. *)
Lemma hash_password_fresh (password : string) (salt : value) (w : World) :
  truthy salt = false ->
  hash_password password salt w =
    (Return (bytes.hex (random_bytes w (drawn w) 16),
             derived_key_hex password (random_bytes w (drawn w) 16)),
     set_drawn (drawn w + 16) w).
Proof.
  intros Hs. unfold hash_password. rewrite Hs.
  cbv [mbind M_bind mret M_ret fmap M_fmap]. rewrite token_hex_run.
  rewrite fromhex_hex. reflexivity.
Qed.

(** Whatever the salt argument, a run that returns has hashed under the salt
    it returns, which is not empty, and has left store and clock alone. *)
Lemma hash_password_inv (password : string) (salt : value) (w w' : World)
    (s h : string) :
  hash_password password salt w = (Return (s, h), w') ->
  s ≠ EmptyString ∧
  (exists raw, bytes.fromhex s = Some raw ∧ h = derived_key_hex password raw) ∧
  (w' = w ∨ w' = set_drawn (drawn w + 16) w).
Proof.
  intros Hrun. destruct (truthy salt) eqn:Hs.
  - destruct salt as [| b | s0 | oid | t];
      try (unfold hash_password in Hrun; rewrite Hs in Hrun;
           cbv [mbind M_bind mret M_ret raise] in Hrun; congruence).
    pose proof (proj1 (truthy_VStr s0) Hs) as Hne.
    destruct (bytes.fromhex s0) as [raw|] eqn:Hraw.
    + rewrite (hash_password_supplied _ _ raw) in Hrun by done.
      injection Hrun as <- <- <-. eauto 10.
    + rewrite hash_password_malformed in Hrun by done. congruence.
  - rewrite hash_password_fresh in Hrun by done.
    pose proof (length_random_bytes w (drawn w) 16) as Hlen.
    remember (random_bytes w (drawn w) 16) as raw eqn:Hraw.
    injection Hrun as <- <- <-. split; [|split].
    + apply hex_nonempty. intros ->. done.
    + eexists. split; [apply fromhex_hex | reflexivity].
    + by right.
Qed.

(** No run of [hash_password] touches the store or the clock. *)
Lemma hash_password_frame (password : string) (salt : value) (w : World) :
  db (hash_password password salt w).2 = db w ∧
  clock_reads (hash_password password salt w).2 = clock_reads w ∧
  utc_clock (hash_password password salt w).2 = utc_clock w ∧
  urandom (hash_password password salt w).2 = urandom w.
Proof.
  destruct (truthy salt) eqn:Hs.
  - unfold hash_password. rewrite Hs. cbv [mbind M_bind mret M_ret raise].
    destruct salt; try done. destruct (bytes.fromhex s); done.
  - rewrite hash_password_fresh by done. done.
Qed.

(** Hashing again under the salt a run returned gives the same pair, in any
    state of the world. *)
Lemma hash_password_again (password : string) (salt : value) (w w' : World)
    (s h : string) :
  hash_password password salt w = (Return (s, h), w') ->
  forall w2, hash_password password (VStr s) w2 = (Return (s, h), w2).
Proof.
  intros Hrun w2.
  destruct (hash_password_inv _ _ _ _ _ _ Hrun) as (Hne & (raw & Hraw & ->) & _).
  by apply hash_password_supplied.
Qed.

End HashPassword.

(** ** The document store *)

Section Store.

Lemma matches_by_email (email : string) (r : stored) :
  database.matches (by_email email) r = true <->
  fields r !! "email" = Some (VStr email).
Proof.
  unfold database.matches, by_email.
  rewrite bool_decide_eq_true, map_Forall_singleton. done.
Qed.

Lemma first_match_app (flt : document) (l1 l2 : list stored) :
  database.first_match flt (l1 ++ l2) =
    match database.first_match flt l1 with
    | Some r => Some r
    | None => database.first_match flt l2
    end.
Proof.
  induction l1 as [|r l1 IH]; [done|].
  cbn. destruct (database.matches flt r); done.
Qed.

(** What [first_match] returns is in the collection and matches. *)
Lemma first_match_Some (flt : document) (l : list stored) (r : stored) :
  database.first_match flt l = Some r -> r ∈ l ∧ database.matches flt r = true.
Proof.
  induction l as [|x l IH]; [done|].
  cbn. destruct (database.matches flt x) eqn:Hx.
  - intros [= ->]. split; [left | done].
  - intros Hr. destruct (IH Hr). split; [by right | done].
Qed.

Lemma collection_insert (name : string) (doc : document) (d : Database) :
  database.collection (database.insert name doc d) name =
    database.collection d name ++ [{| _id := next_oid d; fields := doc |}].
Proof.
  unfold database.collection at 1, database.insert. cbn.
  by rewrite lookup_insert_eq.
Qed.

Lemma collection_insert_ne (name name' : string) (doc : document) (d : Database) :
  name ≠ name' ->
  database.collection (database.insert name doc d) name' =
    database.collection d name'.
Proof.
  intros Hne. unfold database.collection, database.insert. cbn.
  by rewrite lookup_insert_ne.
Qed.

End Store.

(** ** The endpoints, case by case *)

Section Endpoints.
Context `{Hashlib}.

(** Unfolds the monad along a run. *)
Ltac run_step :=
  cbv [mbind M_bind mret M_ret raise fmap M_fmap
       database.db_truth database.db_is_None database.getitem
       database.find_one database.insert_one database.create_document
       datetime.now].

(** Runs on with the facts at hand about the store. *)
Ltac run_with Hdb Hd :=
  repeat (progress (rewrite ?Hdb, ?Hd; cbv beta iota;
                    cbn [db set_drawn set_db set_clock_reads reachable
                         database.insert])).

(** *** [signup] *)

(** Without a store the check for the email is skipped, the password is
    hashed, and [create_document] ends the request. *)
Lemma signup_no_db (payload : SignupRequest.t) (w : World) :
  db w = None ->
  signup payload w = (Raise StorageFault, set_drawn (drawn w + 16) w).
Proof.
  intros Hdb. unfold signup. run_step. run_with Hdb Hdb.
  rewrite hash_password_fresh by done. run_with Hdb Hdb. reflexivity.
Qed.

Lemma signup_unreachable (payload : SignupRequest.t) (w : World) (d : Database) :
  db w = Some d -> reachable d = false ->
  signup payload w = (Raise StorageFault, w).
Proof.
  intros Hdb Hd. unfold signup. run_step. run_with Hdb Hd. reflexivity.
Qed.

Lemma signup_existing (payload : SignupRequest.t) (w : World) (d : Database)
    (r : stored) :
  db w = Some d -> reachable d = true ->
  database.first_match (by_email (SignupRequest.email payload))
    (database.collection d "user") = Some r ->
  signup payload w = (Raise (HTTPException 400 "Email already in use"), w).
Proof.
  intros Hdb Hd Hr. unfold signup. run_step. run_with Hdb Hd.
  fold (by_email (SignupRequest.email payload)). by rewrite Hr.
Qed.

Lemma signup_new (payload : SignupRequest.t) (w : World) (d : Database) :
  db w = Some d -> reachable d = true ->
  database.first_match (by_email (SignupRequest.email payload))
    (database.collection d "user") = None ->
  signup payload w =
    (Return {| AuthResponse.token := signup_token w;
               AuthResponse.name := VStr (SignupRequest.name payload);
               AuthResponse.email := VStr (SignupRequest.email payload) |},
     signup_world payload d w).
Proof.
  intros Hdb Hd Hr. unfold signup. run_step. run_with Hdb Hd.
  fold (by_email (SignupRequest.email payload)). rewrite Hr.
  rewrite hash_password_fresh by done. run_with Hdb Hd.
  rewrite token_hex_run. run_with Hdb Hd. reflexivity.
Qed.

(** A [signup] that returns ran against a reachable store in which no user
    matched the email. *)
Lemma signup_inv (payload : SignupRequest.t) (w w' : World)
    (resp : AuthResponse.t) :
  signup payload w = (Return resp, w') ->
  exists d,
    db w = Some d ∧ reachable d = true ∧
    database.first_match (by_email (SignupRequest.email payload))
      (database.collection d "user") = None ∧
    resp = {| AuthResponse.token := signup_token w;
              AuthResponse.name := VStr (SignupRequest.name payload);
              AuthResponse.email := VStr (SignupRequest.email payload) |} ∧
    w' = signup_world payload d w.
Proof.
  intros Hrun. destruct (db w) as [d|] eqn:Hdb.
  - destruct (reachable d) eqn:Hd.
    + destruct (database.first_match (by_email (SignupRequest.email payload))
                  (database.collection d "user")) as [r|] eqn:Hr.
      * rewrite (signup_existing _ _ d r) in Hrun by done. congruence.
      * rewrite (signup_new _ _ d) in Hrun by done.
        injection Hrun as <- <-. eauto 10.
    + rewrite (signup_unreachable _ _ d) in Hrun by done. congruence.
  - rewrite signup_no_db in Hrun by done. congruence.
Qed.

(** *** [login] *)

Lemma login_no_db (payload : LoginRequest.t) (w : World) :
  db w = None ->
  login payload w = (Raise (HTTPException 500 "Database not available"), w).
Proof.
  intros Hdb. unfold login. run_step. run_with Hdb Hdb. reflexivity.
Qed.

Lemma login_unreachable (payload : LoginRequest.t) (w : World) (d : Database) :
  db w = Some d -> reachable d = false ->
  login payload w = (Raise StorageFault, w).
Proof.
  intros Hdb Hd. unfold login. run_step. run_with Hdb Hd. reflexivity.
Qed.

Lemma login_unknown (payload : LoginRequest.t) (w : World) (d : Database) :
  db w = Some d -> reachable d = true ->
  database.first_match (by_email (LoginRequest.email payload))
    (database.collection d "user") = None ->
  login payload w = (Raise (HTTPException 401 "Invalid credentials"), w).
Proof.
  intros Hdb Hd Hr. unfold login. run_step. run_with Hdb Hd.
  fold (by_email (LoginRequest.email payload)). by rewrite Hr.
Qed.

(** With the user found, [login] goes the way of [hash_password]. *)
Lemma login_found (payload : LoginRequest.t) (w : World) (d : Database)
    (record : stored) :
  db w = Some d -> reachable d = true ->
  database.first_match (by_email (LoginRequest.email payload))
    (database.collection d "user") = Some record ->
  login payload w =
    match hash_password (LoginRequest.password payload)
            (record_get record "password_salt") w with
    | (Raise e, w1) => (Raise e, w1)
    | (Return (_, verify_hash), w1) =>
        if bool_decide (VStr verify_hash ≠ record_get record "password_hash")
        then (Raise (HTTPException 401 "Invalid credentials"), w1)
        else
          (Return {| AuthResponse.token := login_token w1;
                     AuthResponse.name := record_get record "name";
                     AuthResponse.email := record_get record "email" |},
           login_world record d w1)
    end.
Proof.
  intros Hdb Hd Hr. unfold login. run_step. run_with Hdb Hd.
  fold (by_email (LoginRequest.email payload)). rewrite Hr.
  pose proof (hash_password_frame (LoginRequest.password payload)
                (record_get record "password_salt") w) as (Hdb1 & _).
  destruct (hash_password (LoginRequest.password payload)
              (record_get record "password_salt") w) as [[[s h]|e] w1];
    [|reflexivity].
  cbn [snd] in Hdb1. rewrite Hdb in Hdb1.
  case_bool_decide; [reflexivity|].
  rewrite token_hex_run. run_with Hdb1 Hd. reflexivity.
Qed.

(** A [login] that returns found the user and recomputed the stored hash. *)
Lemma login_inv (payload : LoginRequest.t) (w w' : World)
    (resp : AuthResponse.t) :
  login payload w = (Return resp, w') ->
  exists d record s h w1,
    db w = Some d ∧ reachable d = true ∧
    database.first_match (by_email (LoginRequest.email payload))
      (database.collection d "user") = Some record ∧
    hash_password (LoginRequest.password payload)
      (record_get record "password_salt") w = (Return (s, h), w1) ∧
    record_get record "password_hash" = VStr h ∧
    resp = {| AuthResponse.token := login_token w1;
              AuthResponse.name := record_get record "name";
              AuthResponse.email := record_get record "email" |} ∧
    w' = login_world record d w1.
Proof.
  intros Hrun. destruct (db w) as [d|] eqn:Hdb.
  - destruct (reachable d) eqn:Hd.
    + destruct (database.first_match (by_email (LoginRequest.email payload))
                  (database.collection d "user")) as [r|] eqn:Hr.
      * rewrite (login_found _ _ d r) in Hrun by done.
        destruct (hash_password (LoginRequest.password payload)
                    (record_get r "password_salt") w) as [[[s h]|e] w1] eqn:Hhp;
          [|congruence].
        case_bool_decide as Hcmp; [congruence|].
        injection Hrun as <- <-.
        exists d, r, s, h, w1. repeat split; try done.
      * rewrite (login_unknown _ _ d) in Hrun by done. congruence.
    + rewrite (login_unreachable _ _ d) in Hrun by done. congruence.
  - rewrite login_no_db in Hrun by done. congruence.
Qed.

End Endpoints.

(** ** Properties of the credential manager *)

(** C1, as stated, fails at the empty salt, which is well-formed hex:
    [hash_password] replaces it by fresh random bytes on every call, so the
    hash recomputed from the password and the empty salt is derived under
    another salt than the stored one, and the comparison of [login],
    [verify_hash != record.get("password_hash")], rejects it. *)
Lemma C1_empty_salt_counterexample :
  well_formed_hex EmptyString ∧
  @hash_password sample_hashlib "secret123" (VStr EmptyString) sample_world
    = (Return ("000102030405060708090a0b0c0d0e0f",
               "000102030405060708090a0b0c0d0e0f736563726574313233"),
       set_drawn 16 sample_world) ∧
  @hash_password sample_hashlib "secret123" (VStr EmptyString)
     (set_drawn 16 sample_world)
    = (Return ("101112131415161718191a1b1c1d1e1f",
               "101112131415161718191a1b1c1d1e1f736563726574313233"),
       set_drawn 32 sample_world) ∧
  bool_decide
    (VStr "101112131415161718191a1b1c1d1e1f736563726574313233"
     ≠ VStr "000102030405060708090a0b0c0d0e0f736563726574313233") = true.
Proof.
  split; [by eexists|]. repeat split; vm_compute; reflexivity.
Qed.

(** C1 (amended): for every password P and every well-formed hex salt S
    that is not empty, hashing P under S returns S and a hash H, hashing P
    under S again returns the same H in any state of the world, and [login]
    accepts P for every stored user whose salt is S and whose hash is H. *)
Theorem C1_verify_accepts_own_hash `{Hashlib} (P S : string) (w : World) :
  S ≠ EmptyString ->
  well_formed_hex S ->
  exists h,
    hash_password P (VStr S) w = (Return (S, h), w) ∧
    (forall w2, hash_password P (VStr S) w2 = (Return (S, h), w2)) ∧
    (forall (email : string) (w2 : World) (d : Database) (record : stored),
        db w2 = Some d -> reachable d = true ->
        database.first_match (by_email email) (database.collection d "user")
          = Some record ->
        record_get record "password_salt" = VStr S ->
        record_get record "password_hash" = VStr h ->
        login {| LoginRequest.email := email; LoginRequest.password := P |} w2
          = (Return {| AuthResponse.token := login_token w2;
                       AuthResponse.name := record_get record "name";
                       AuthResponse.email := record_get record "email" |},
             login_world record d w2)).
Proof.
  intros Hne [raw Hraw]. exists (derived_key_hex P raw).
  split; [by apply hash_password_supplied|].
  split; [intros w2; by apply hash_password_supplied|].
  intros email w2 d record Hdb Hd Hfound Hsalt Hhash.
  rewrite (login_found _ _ d record) by done. cbn [LoginRequest.password].
  rewrite Hsalt, (hash_password_supplied _ _ raw) by done.
  rewrite Hhash. by rewrite bool_decide_eq_false_2 by (intros ?; done).
Qed.

Lemma C1_verify_accepts_own_hash_witness :
  "00ff" ≠ EmptyString ∧ well_formed_hex "00ff" ∧
  exists h,
    @hash_password sample_hashlib "hunter2" (VStr "00ff") sample_world
      = (Return ("00ff", h), sample_world) ∧
    record_get bob_deactivated "password_hash" = VStr h ∧
    @login sample_hashlib bob_login world_with_bob
      = (Return {| AuthResponse.token := login_token world_with_bob;
                   AuthResponse.name := record_get bob_deactivated "name";
                   AuthResponse.email := record_get bob_deactivated "email" |},
         login_world bob_deactivated
           {| reachable := true;
              collections := {[ "user" := [bob_deactivated] ]};
              next_oid := 8 |}
           world_with_bob).
Proof.
  split; [discriminate|]. split; [by eexists|].
  destruct (@C1_verify_accepts_own_hash sample_hashlib "hunter2" "00ff"
              sample_world) as (h & Hrun & _ & Hlogin);
    [discriminate | by eexists |].
  assert (record_get bob_deactivated "password_hash" = VStr h) as Hh.
  { vm_compute in Hrun. injection Hrun as <-. vm_compute. reflexivity. }
  exists h. split; [exact Hrun|]. split; [exact Hh|].
  apply (Hlogin "b@x.com" world_with_bob
           {| reachable := true;
              collections := {[ "user" := [bob_deactivated] ]};
              next_oid := 8 |}
           bob_deactivated).
  - reflexivity.
  - reflexivity.
  - vm_compute. reflexivity.
  - vm_compute. reflexivity.
  - exact Hh.
Defined.

(** C2: [hash_password] derives the hash as PBKDF2-HMAC-SHA256 with 100,000
    iterations over the UTF-8 encoding of the password and the raw bytes
    decoded from the hexadecimal salt it returns, and returns the derived
    key in hexadecimal: so for every run that returns, so for a salt that is
    given, and so when the salt is omitted, where the run always returns and
    the salt is the hexadecimal form, 32 characters long, of the next 16
    bytes of the random source. *)
Theorem C2_hash_is_pbkdf2_of_salt `{Hashlib} (P : string) (w : World) :
  (forall (salt : value) (s h : string) (w' : World),
      hash_password P salt w = (Return (s, h), w') ->
      exists raw,
        bytes.fromhex s = Some raw ∧
        h = bytes.hex (pbkdf2_hmac "sha256" (str.encode P) raw 100000)) ∧
  (forall (S : string) (raw : list byte),
      S ≠ EmptyString -> bytes.fromhex S = Some raw ->
      hash_password P (VStr S) w =
        (Return (S, bytes.hex (pbkdf2_hmac "sha256" (str.encode P) raw 100000)),
         w)) ∧
  (let raw := random_bytes w (drawn w) 16 in
   hash_password P VNone w =
     (Return (bytes.hex raw,
              bytes.hex (pbkdf2_hmac "sha256" (str.encode P) raw 100000)),
      set_drawn (drawn w + 16) w) ∧
   length raw = 16 ∧
   String.length (bytes.hex raw) = 32 ∧
   all_hexdigits (bytes.hex raw) = true ∧
   bytes.fromhex (bytes.hex raw) = Some raw).
Proof.
  split; [|split].
  - intros salt s h w' Hrun.
    destruct (hash_password_inv _ _ _ _ _ _ Hrun) as (_ & Hkey & _).
    exact Hkey.
  - intros S raw HS Hraw. by apply hash_password_supplied.
  - cbv zeta. split; [by apply hash_password_fresh|].
    split; [apply length_random_bytes|].
    split; [by rewrite length_hex, length_random_bytes|].
    split; [apply all_hexdigits_hex | apply fromhex_hex].
Qed.

Lemma C2_hash_is_pbkdf2_of_salt_witness :
  "00ff" ≠ EmptyString ∧ bytes.fromhex "00ff" = Some [x00; xff] ∧
  @hash_password sample_hashlib "hunter2" (VStr "00ff") sample_world =
    (Return ("00ff",
             bytes.hex (@pbkdf2_hmac sample_hashlib "sha256"
                          (str.encode "hunter2") [x00; xff] 100000)),
     sample_world).
Proof.
  split; [discriminate|]. split; [reflexivity|].
  apply (proj1 (proj2 (@C2_hash_is_pbkdf2_of_salt sample_hashlib "hunter2"
                         sample_world)));
    [discriminate | reflexivity].
Defined.




(** C8, as stated, fails at the empty salt: it is supplied, yet the run
    draws sixteen bytes from the random source, and the next run on the same
    password and salt returns another salt and another hash. *)
Lemma C8_empty_salt_counterexample :
  (@hash_password sample_hashlib "secret123" (VStr EmptyString) sample_world).1
    = Return ("000102030405060708090a0b0c0d0e0f",
              "000102030405060708090a0b0c0d0e0f736563726574313233") ∧
  (@hash_password sample_hashlib "secret123" (VStr EmptyString)
     (@hash_password sample_hashlib "secret123" (VStr EmptyString)
        sample_world).2).1
    = Return ("101112131415161718191a1b1c1d1e1f",
              "101112131415161718191a1b1c1d1e1f736563726574313233") ∧
  drawn sample_world = 0 ∧
  drawn (@hash_password sample_hashlib "secret123" (VStr EmptyString)
           sample_world).2 = 16.
Proof. repeat split; vm_compute; reflexivity. Qed.

(** C8 (amended): when a salt that is not empty is supplied,
    [hash_password] is deterministic and free of side effects: any two runs
    on the same password and salt, in any two states of the world, have the
    same outcome, and a run leaves the world, the store in it, as it was. *)
Theorem C8_deterministic_on_supplied_salt `{Hashlib} (P S : string)
    (w w2 : World) :
  S ≠ EmptyString ->
  (hash_password P (VStr S) w).1 = (hash_password P (VStr S) w2).1 ∧
  (hash_password P (VStr S) w).2 = w ∧
  (hash_password P (VStr S) w2).2 = w2.
Proof.
  intros HS. destruct (bytes.fromhex S) as [raw|] eqn:Hraw.
  - by rewrite !(hash_password_supplied _ _ raw) by done.
  - by rewrite !hash_password_malformed by done.
Qed.

Lemma C8_deterministic_on_supplied_salt_witness :
  "00ff" ≠ EmptyString ∧
  (@hash_password sample_hashlib "hunter2" (VStr "00ff") sample_world).1
    = (@hash_password sample_hashlib "hunter2" (VStr "00ff") world_with_ann).1 ∧
  (@hash_password sample_hashlib "hunter2" (VStr "00ff") sample_world).2
    = sample_world ∧
  (@hash_password sample_hashlib "hunter2" (VStr "00ff") world_with_ann).2
    = world_with_ann.
Proof.
  split; [discriminate|].
  apply (@C8_deterministic_on_supplied_salt sample_hashlib); discriminate.
Defined.

(** ** What the endpoints do to the store *)

Section StoreAfter.
Context `{Hashlib}.

Lemma dump_email (u : User.t) :
  User.dump u !! "email" = Some (VStr (User.email u)).
Proof. reflexivity. Qed.

Lemma dump_dom (u : User.t) :
  dom (User.dump u) =
    ({[ "name"; "email"; "password_hash"; "password_salt";
        "avatar"; "role"; "is_active" ]} : gset string).
Proof. unfold User.dump. rewrite !dom_insert_L, dom_singleton_L. set_solver. Qed.

Lemma session_doc_dom (user_id : value) (token : string) (created_at : Z) :
  dom (session_doc user_id token created_at) =
    ({[ "user_id"; "token"; "created_at" ]} : gset string).
Proof. unfold session_doc. rewrite !dom_insert_L, dom_singleton_L. set_solver. Qed.

Lemma users_signup_world (payload : SignupRequest.t) (d : Database) (w : World) :
  db w = Some d ->
  users (signup_world payload d w) =
    users w ++ [{| _id := next_oid d;
                   fields := User.dump (signup_user payload w) |}].
Proof.
  intros Hdb. unfold users. rewrite Hdb. cbn [signup_world db].
  rewrite collection_insert_ne by done. apply collection_insert.
Qed.

Lemma sessions_signup_world (payload : SignupRequest.t) (d : Database)
    (w : World) :
  db w = Some d ->
  sessions (signup_world payload d w) =
    sessions w ++ [{| _id := (next_oid d + 1)%N;
                      fields := session_doc (VObjectId (next_oid d))
                                  (signup_token w)
                                  (utc_clock w (clock_reads w)) |}].
Proof.
  intros Hdb. unfold sessions. rewrite Hdb. cbn [signup_world db].
  rewrite collection_insert, collection_insert_ne by done. reflexivity.
Qed.

Lemma users_login_world (record : stored) (d : Database) (w1 : World) :
  users (login_world record d w1) = database.collection d "user".
Proof.
  unfold users. cbn [login_world db]. by rewrite collection_insert_ne.
Qed.

Lemma sessions_login_world (record : stored) (d : Database) (w1 : World) :
  sessions (login_world record d w1) =
    database.collection d "session" ++
      [{| _id := next_oid d;
          fields := session_doc (VStr (ObjectId_str (_id record)))
                      (login_token w1) (utc_clock w1 (clock_reads w1)) |}].
Proof. unfold sessions. cbn [login_world db]. apply collection_insert. Qed.

(** The world after [signup], in every case. *)
Lemma signup_cases (payload : SignupRequest.t) (w : World) :
  (signup payload w).2 = w ∨
  (db w = None ∧ (signup payload w).2 = set_drawn (drawn w + 16) w) ∨
  (exists d, db w = Some d ∧ reachable d = true ∧
             (signup payload w).2 = signup_world payload d w).
Proof.
  destruct (db w) as [d|] eqn:Hdb.
  - destruct (reachable d) eqn:Hd.
    + destruct (database.first_match (by_email (SignupRequest.email payload))
                  (database.collection d "user")) as [r|] eqn:Hr.
      * left. by rewrite (signup_existing _ _ d r).
      * right. right. exists d. by rewrite (signup_new _ _ d).
    + left. by rewrite (signup_unreachable _ _ d).
  - right. left. by rewrite signup_no_db.
Qed.

(** The world after [login], in every case: the store is as it was, or has
    one more session. *)
Lemma login_cases (payload : LoginRequest.t) (w : World) :
  db (login payload w).2 = db w ∨
  (exists d record w1,
      db w = Some d ∧ reachable d = true ∧
      (login payload w).2 = login_world record d w1).
Proof.
  destruct (db w) as [d|] eqn:Hdb.
  - destruct (reachable d) eqn:Hd.
    + destruct (database.first_match (by_email (LoginRequest.email payload))
                  (database.collection d "user")) as [r|] eqn:Hr.
      * rewrite (login_found _ _ d r) by done.
        pose proof (hash_password_frame (LoginRequest.password payload)
                      (record_get r "password_salt") w) as (Hdb1 & _).
        destruct (hash_password (LoginRequest.password payload)
                    (record_get r "password_salt") w) as [[[s h]|e] w1].
        -- case_bool_decide.
           ++ left. cbn [snd] in *. congruence.
           ++ right. by exists d, r, w1.
        -- left. cbn [snd] in *. congruence.
      * left. rewrite (login_unknown _ _ d) by done. exact Hdb.
    + left. rewrite (login_unreachable _ _ d) by done. exact Hdb.
  - left. rewrite login_no_db by done. exact Hdb.
Qed.

(** No request removes or changes a user: the users before are a prefix of
    the users after. *)
Lemma users_handle (req : request) (w : World) :
  users w `prefix_of` users (handle req w).
Proof.
  destruct req as [payload|payload]; cbn [handle].
  - destruct (signup_cases payload w) as [-> | [[Hdb ->] | (d & Hdb & _ & ->)]].
    + done.
    + unfold users. cbn [set_drawn db]. done.
    + rewrite users_signup_world by done. by eexists.
  - destruct (login_cases payload w) as [Hdb | (d & r & w1 & Hdb & _ & ->)].
    + unfold users. by rewrite Hdb.
    + rewrite users_login_world. unfold users. by rewrite Hdb.
Qed.

Lemma users_serve (reqs : list request) (w : World) :
  users w `prefix_of` users (serve reqs w).
Proof.
  revert w. induction reqs as [|req reqs IH]; intros w; cbn [serve]; [done|].
  etrans; [apply users_handle | apply IH].
Qed.

(** No request makes a reachable store unreachable or takes it away. *)
Lemma reachable_handle (req : request) (w : World) (d : Database) :
  db w = Some d -> reachable d = true ->
  exists d', db (handle req w) = Some d' ∧ reachable d' = true.
Proof.
  intros Hdb Hd. destruct req as [payload|payload]; cbn [handle].
  - destruct (signup_cases payload w)
      as [-> | [[Hdb' ->] | (d0 & Hdb0 & _ & ->)]]; [eauto | congruence |].
    cbn [signup_world db]. eexists. split; [done|]. cbn. congruence.
  - destruct (login_cases payload w) as [Hdb' | (d0 & r & w1 & Hdb0 & _ & ->)].
    + rewrite Hdb', Hdb. eauto.
    + cbn [login_world db]. eexists. split; [done|]. cbn. congruence.
Qed.

(** An email that is taken stays taken, whatever is requested next. *)
Lemma first_match_prefix (flt : document) (l l' : list stored) (r : stored) :
  l `prefix_of` l' ->
  database.first_match flt l = Some r -> database.first_match flt l' = Some r.
Proof. intros [k ->] Hr. by rewrite first_match_app, Hr. Qed.

End StoreAfter.

(** ** Properties of signup *)

(** The user a successful [signup] stored is found under its email. *)
Lemma signup_world_finds `{Hashlib} (payload : SignupRequest.t) (d : Database)
    (w : World) (email : string) :
  db w = Some d ->
  email = SignupRequest.email payload ->
  database.first_match (by_email email) (database.collection d "user") = None ->
  database.first_match (by_email email) (users (signup_world payload d w)) =
    Some {| _id := next_oid d; fields := User.dump (signup_user payload w) |}.
Proof.
  intros Hdb -> Hnone. rewrite users_signup_world by done.
  unfold users. rewrite Hdb, first_match_app, Hnone. cbn [database.first_match].
  by rewrite (proj2 (matches_by_email _ _)) by apply dump_email.
Qed.

(** C3: of two signup requests with the same email of which the first
    succeeds, the second ends in [HTTPException(400, "Email already in
    use")], the error kind EmailInUse, and leaves the world as the first left
    it: no user and no session is added. *)
Theorem C3_second_signup_email_in_use `{Hashlib}
    (first second : SignupRequest.t) (w w1 : World) (resp : AuthResponse.t) :
  SignupRequest.email second = SignupRequest.email first ->
  signup first w = (Return resp, w1) ->
  signup second w1 =
    (Raise (HTTPException 400 "Email already in use"), w1) ∧
  error_kind (HTTPException 400 "Email already in use") = Some EmailInUse ∧
  users (signup second w1).2 = users w1 ∧
  sessions (signup second w1).2 = sessions w1.
Proof.
  intros Hemail Hfirst.
  destruct (signup_inv _ _ _ _ Hfirst) as (d & Hdb & Hd & Hnone & _ & ->).
  assert (signup second (signup_world first d w) =
            (Raise (HTTPException 400 "Email already in use"),
             signup_world first d w)) as Hsecond.
  { eapply signup_existing; [reflexivity | exact Hd |].
    rewrite Hemail.
    exact (signup_world_finds first d w _ Hdb eq_refl Hnone). }
  rewrite Hsecond. done.
Qed.

Lemma C3_second_signup_email_in_use_witness :
  SignupRequest.email ann_signup = SignupRequest.email ann_signup ∧
  @signup sample_hashlib ann_signup world_with_ann =
    (Raise (HTTPException 400 "Email already in use"), world_with_ann) ∧
  users (@signup sample_hashlib ann_signup world_with_ann).2
    = users world_with_ann.
Proof.
  split; [reflexivity|].
  destruct (@C3_second_signup_email_in_use sample_hashlib ann_signup ann_signup
              sample_world world_with_ann
              {| AuthResponse.token := signup_token sample_world;
                 AuthResponse.name := VStr "Ann";
                 AuthResponse.email := VStr "a@x.com" |})
    as (Hrun & _ & Husers & _).
  - reflexivity.
  - vm_compute. reflexivity.
  - split; [exact Hrun | exact Husers].
Defined.

(** An email that is taken stays taken, and a reachable store reachable,
    whatever is requested next. *)
Lemma taken_after_requests `{Hashlib} (reqs : list request) (email : string)
    (r : stored) (w : World) (d : Database) :
  db w = Some d -> reachable d = true ->
  database.first_match (by_email email) (users w) = Some r ->
  exists d',
    db (serve reqs w) = Some d' ∧ reachable d' = true ∧
    database.first_match (by_email email) (users (serve reqs w)) = Some r.
Proof.
  revert w d. induction reqs as [|req reqs IH]; intros w d Hdb Hd Hfound.
  - exists d. done.
  - cbn [serve]. destruct (reachable_handle req w d Hdb Hd) as (d2 & Hdb2 & Hd2).
    apply (IH _ d2); [exact Hdb2 | exact Hd2 |].
    eapply first_match_prefix; [apply users_handle | exact Hfound].
Qed.

(** The second signup is refused however many requests come between the
    two. *)
Lemma signup_again_after_requests `{Hashlib} (first second : SignupRequest.t)
    (reqs : list request) (w w1 : World) (resp : AuthResponse.t) :
  SignupRequest.email second = SignupRequest.email first ->
  signup first w = (Return resp, w1) ->
  signup second (serve reqs w1) =
    (Raise (HTTPException 400 "Email already in use"), serve reqs w1).
Proof.
  intros Hemail Hfirst.
  destruct (signup_inv _ _ _ _ Hfirst) as (d & Hdb & Hd & Hnone & _ & ->).
  pose proof (signup_world_finds first d w _ Hdb eq_refl Hnone) as Hfound.
  destruct (taken_after_requests reqs _ _ (signup_world first d w) _
              eq_refl Hd Hfound) as (d' & Hdb' & Hd' & Hfound').
  eapply signup_existing; [exact Hdb' | exact Hd' |].
  rewrite Hemail. unfold users in Hfound'. rewrite Hdb' in Hfound'.
  exact Hfound'.
Qed.

(** ** Properties of login *)

(** C4: against a reachable store, a login whose email matches no user, and
    a login whose email matches a user but whose recomputed hash differs
    from the stored one, end in the same [HTTPException(401, "Invalid
    credentials")], the error kind InvalidCredentials, and leave the store
    as it was: no session is created. *)
Theorem C4_invalid_credentials `{Hashlib} (payload : LoginRequest.t)
    (w : World) (d : Database) :
  db w = Some d -> reachable d = true ->
  (database.first_match (by_email (LoginRequest.email payload))
     (database.collection d "user") = None ->
   login payload w = (Raise (HTTPException 401 "Invalid credentials"), w)) ∧
  (forall (record : stored) (s h : string) (w1 : World),
      database.first_match (by_email (LoginRequest.email payload))
        (database.collection d "user") = Some record ->
      hash_password (LoginRequest.password payload)
        (record_get record "password_salt") w = (Return (s, h), w1) ->
      VStr h ≠ record_get record "password_hash" ->
      login payload w = (Raise (HTTPException 401 "Invalid credentials"), w1) ∧
      db w1 = db w ∧ sessions w1 = sessions w ∧ users w1 = users w) ∧
  error_kind (HTTPException 401 "Invalid credentials") = Some InvalidCredentials.
Proof.
  intros Hdb Hd. split; [|split; [|reflexivity]].
  - intros Hnone. by apply (login_unknown _ _ d).
  - intros record s h w1 Hfound Hrun Hdiff.
    rewrite (login_found _ _ d record), Hrun by done.
    rewrite bool_decide_eq_true_2 by done.
    pose proof (hash_password_frame (LoginRequest.password payload)
                  (record_get record "password_salt") w) as (Hdb1 & _).
    rewrite Hrun in Hdb1. cbn [snd] in Hdb1.
    unfold sessions, users. by rewrite Hdb1.
Qed.

Lemma C4_invalid_credentials_witness :
  (@login sample_hashlib bob_login world_with_ann =
     (Raise (HTTPException 401 "Invalid credentials"), world_with_ann)) ∧
  (@login sample_hashlib ann_wrong_password world_with_ann =
     (Raise (HTTPException 401 "Invalid credentials"), world_with_ann)).
Proof.
  destruct (@C4_invalid_credentials sample_hashlib bob_login world_with_ann
              (default sample_store (db world_with_ann)))
    as (Hunknown & _ & _); [vm_compute; reflexivity | reflexivity |].
  destruct (@C4_invalid_credentials sample_hashlib ann_wrong_password
              world_with_ann (default sample_store (db world_with_ann)))
    as (_ & Hwrong & _); [vm_compute; reflexivity | reflexivity |].
  split.
  - apply Hunknown. vm_compute. reflexivity.
  - refine (proj1 (Hwrong
             {| _id := 1;
                fields := User.dump (@signup_user sample_hashlib ann_signup
                                       sample_world) |}
             "000102030405060708090a0b0c0d0e0f"
             (@derived_key_hex sample_hashlib "wrong"
                (random_bytes sample_world 0 16))
             world_with_ann _ _ _)).
    + vm_compute. reflexivity.
    + vm_compute. reflexivity.
    + vm_compute. discriminate.
Defined.

(** C10: [login] does not look at [is_active]: for a stored user whose
    [is_active] is false, a login with the user's email and a password whose
    recomputed hash is the stored one returns a token of 48 characters and
    adds the session that ties the token to the user. *)
Theorem C10_login_ignores_is_active `{Hashlib} (payload : LoginRequest.t)
    (w w1 : World) (d : Database) (record : stored) (s h : string) :
  db w = Some d -> reachable d = true ->
  database.first_match (by_email (LoginRequest.email payload))
    (database.collection d "user") = Some record ->
  fields record !! "is_active" = Some (VBool false) ->
  hash_password (LoginRequest.password payload)
    (record_get record "password_salt") w = (Return (s, h), w1) ->
  record_get record "password_hash" = VStr h ->
  exists (resp : AuthResponse.t) (w' : World),
    login payload w = (Return resp, w') ∧
    AuthResponse.token resp = bytes.hex (random_bytes w1 (drawn w1) 24) ∧
    String.length (AuthResponse.token resp) = 48 ∧
    sessions w' =
      sessions w ++
        [{| _id := next_oid d;
            fields := session_doc (VStr (ObjectId_str (_id record)))
                        (AuthResponse.token resp)
                        (utc_clock w (clock_reads w)) |}].
Proof.
  intros Hdb Hd Hfound _ Hrun Hhash.
  pose proof (hash_password_frame (LoginRequest.password payload)
                (record_get record "password_salt") w) as (_ & Hreads & Hclock & _).
  rewrite Hrun in Hreads, Hclock. cbn [snd] in Hreads, Hclock.
  eexists _, _. split.
  - rewrite (login_found _ _ d record), Hrun by done.
    rewrite bool_decide_eq_false_2 by (rewrite Hhash; intros ?; done).
    reflexivity.
  - cbn [AuthResponse.token]. split; [reflexivity|]. split.
    + unfold login_token. by rewrite length_hex, length_random_bytes.
    + rewrite sessions_login_world. unfold sessions. rewrite Hdb.
      by rewrite Hreads, Hclock.
Qed.

Lemma C10_login_ignores_is_active_witness :
  fields bob_deactivated !! "is_active" = Some (VBool false) ∧
  exists (resp : AuthResponse.t) (w' : World),
    @login sample_hashlib bob_login world_with_bob = (Return resp, w') ∧
    String.length (AuthResponse.token resp) = 48 ∧
    length (sessions w') = 1.
Proof.
  split; [vm_compute; reflexivity|].
  destruct (@C10_login_ignores_is_active sample_hashlib bob_login
              world_with_bob world_with_bob
              {| reachable := true;
                 collections := {[ "user" := [bob_deactivated] ]};
                 next_oid := 8 |}
              bob_deactivated "00ff"
              (@derived_key_hex sample_hashlib "hunter2" [x00; xff]))
    as (resp & w' & Hrun & _ & Hlen & Hsessions).
  - reflexivity.
  - reflexivity.
  - vm_compute. reflexivity.
  - vm_compute. reflexivity.
  - vm_compute. reflexivity.
  - vm_compute. reflexivity.
  - exists resp, w'. split; [exact Hrun|]. split; [exact Hlen|].
    rewrite Hsessions. reflexivity.
Defined.

(** ** Properties of the session issuer *)

(** C5: a signup that returns and a login that returns have each minted a
    token from 24 bytes the random source had not delivered before, 48
    hexadecimal characters long, and have returned that token; each has
    added exactly one session record, whose three fields and no other are
    [token], that same token, [user_id], the identifier of the account
    ([signup]: the identifier under which the user record was stored, as
    the store generated it; [login]: the identifier of the user that was
    found, as a string), and [created_at], the reading of the UTC clock. *)
Theorem C5_one_session_per_success `{Hashlib} :
  (forall (payload : SignupRequest.t) (w w' : World) (resp : AuthResponse.t),
      signup payload w = (Return resp, w') ->
      exists (d : Database) (account session : stored),
        db w = Some d ∧
        AuthResponse.token resp = bytes.hex (random_bytes w (drawn w + 16) 24) ∧
        drawn w' = drawn w + 16 + 24 ∧
        String.length (AuthResponse.token resp) = 48 ∧
        all_hexdigits (AuthResponse.token resp) = true ∧
        users w' = users w ++ [account] ∧
        _id account = next_oid d ∧
        fields account = User.dump (signup_user payload w) ∧
        sessions w' = sessions w ++ [session] ∧
        _id session = (next_oid d + 1)%N ∧
        session =
          {| _id := (next_oid d + 1)%N;
             fields := session_doc (VObjectId (next_oid d))
                         (AuthResponse.token resp)
                         (utc_clock w (clock_reads w)) |} ∧
        dom (fields session) =
          ({[ "user_id"; "token"; "created_at" ]} : gset string) ∧
        fields session !! "token" = Some (VStr (AuthResponse.token resp)) ∧
        fields session !! "user_id" = Some (VObjectId (_id account)) ∧
        fields session !! "created_at" =
          Some (VDatetime (utc_clock w (clock_reads w))) ∧
        clock_reads w' = S (clock_reads w)) ∧
  (forall (payload : LoginRequest.t) (w w' : World) (resp : AuthResponse.t),
      login payload w = (Return resp, w') ->
      exists (d : Database) (record session : stored) (pos : nat),
        db w = Some d ∧
        database.first_match (by_email (LoginRequest.email payload))
          (users w) = Some record ∧
        drawn w <= pos ∧
        AuthResponse.token resp = bytes.hex (random_bytes w pos 24) ∧
        drawn w' = pos + 24 ∧
        String.length (AuthResponse.token resp) = 48 ∧
        all_hexdigits (AuthResponse.token resp) = true ∧
        users w' = users w ∧
        sessions w' = sessions w ++ [session] ∧
        session =
          {| _id := next_oid d;
             fields := session_doc (VStr (ObjectId_str (_id record)))
                         (AuthResponse.token resp)
                         (utc_clock w (clock_reads w)) |} ∧
        dom (fields session) =
          ({[ "user_id"; "token"; "created_at" ]} : gset string) ∧
        fields session !! "token" = Some (VStr (AuthResponse.token resp)) ∧
        fields session !! "user_id" =
          Some (VStr (ObjectId_str (_id record))) ∧
        fields session !! "created_at" =
          Some (VDatetime (utc_clock w (clock_reads w))) ∧
        clock_reads w' = S (clock_reads w)).
Proof.
  split.
  - intros payload w w' resp Hrun.
    destruct (signup_inv _ _ _ _ Hrun) as (d & Hdb & Hd & Hnone & -> & ->).
    exists d,
      {| _id := next_oid d; fields := User.dump (signup_user payload w) |},
      {| _id := (next_oid d + 1)%N;
         fields := session_doc (VObjectId (next_oid d)) (signup_token w)
                     (utc_clock w (clock_reads w)) |}.
    cbn [AuthResponse.token _id fields]. unfold signup_token.
    split; [done|]. split; [done|]. split; [done|].
    split; [by rewrite length_hex, length_random_bytes|].
    split; [apply all_hexdigits_hex|].
    split; [by apply users_signup_world|].
    split; [done|]. split; [done|].
    split; [by apply sessions_signup_world|].
    split; [done|]. split; [done|].
    split; [apply session_doc_dom|].
    repeat (split; [reflexivity|]). reflexivity.
  - intros payload w w' resp Hrun.
    destruct (login_inv _ _ _ _ Hrun)
      as (d & record & s & h & w1 & Hdb & Hd & Hfound & Hhp & _ & -> & ->).
    destruct (hash_password_inv _ _ _ _ _ _ Hhp) as (_ & _ & Hw1).
    assert (random_bytes w1 (drawn w1) 24 = random_bytes w (drawn w1) 24
            ∧ drawn w <= drawn w1
            ∧ utc_clock w1 (clock_reads w1) = utc_clock w (clock_reads w)
            ∧ clock_reads w1 = clock_reads w)
      as (Hbytes & Hpos & Hclock & Hreads).
    { destruct Hw1 as [-> | ->]; cbn [set_drawn drawn]; repeat split; lia. }
    exists d, record,
      {| _id := next_oid d;
         fields := session_doc (VStr (ObjectId_str (_id record)))
                     (login_token w1) (utc_clock w (clock_reads w)) |},
      (drawn w1).
    cbn [AuthResponse.token _id fields]. unfold login_token.
    split; [done|].
    split; [by (unfold users; rewrite Hdb)|].
    split; [done|]. split; [by rewrite Hbytes|]. split; [done|].
    split; [by rewrite length_hex, length_random_bytes|].
    split; [apply all_hexdigits_hex|].
    split; [by (rewrite users_login_world; unfold users; rewrite Hdb)|].
    split; [by (rewrite sessions_login_world, Hclock;
                unfold sessions, login_token; rewrite Hdb)|].
    split; [done|].
    split; [apply session_doc_dom|].
    repeat (split; [reflexivity|]).
    cbn [login_world clock_reads]. by rewrite Hreads.
Qed.

Lemma C5_one_session_per_success_witness :
  @signup sample_hashlib ann_signup sample_world =
    (Return {| AuthResponse.token := signup_token sample_world;
               AuthResponse.name := VStr "Ann";
               AuthResponse.email := VStr "a@x.com" |},
     world_with_ann) ∧
  signup_token sample_world
    = "101112131415161718191a1b1c1d1e1f2021222324252627" ∧
  (exists (account session : stored),
      users world_with_ann = [account] ∧
      sessions world_with_ann = [session] ∧
      fields session !! "token" =
        Some (VStr "101112131415161718191a1b1c1d1e1f2021222324252627") ∧
      fields session !! "user_id" = Some (VObjectId (_id account)) ∧
      fields session !! "created_at" = Some (VDatetime 1700000000)) ∧
  @login sample_hashlib ann_login world_with_ann =
    (Return {| AuthResponse.token := login_token world_with_ann;
               AuthResponse.name := VStr "Ann";
               AuthResponse.email := VStr "a@x.com" |},
     (@login sample_hashlib ann_login world_with_ann).2) ∧
  login_token world_with_ann
    = "28292a2b2c2d2e2f303132333435363738393a3b3c3d3e3f" ∧
  (exists (record session : stored),
      database.first_match (by_email "a@x.com") (users world_with_ann)
        = Some record ∧
      sessions (@login sample_hashlib ann_login world_with_ann).2 =
        sessions world_with_ann ++ [session] ∧
      fields session !! "token" =
        Some (VStr "28292a2b2c2d2e2f303132333435363738393a3b3c3d3e3f") ∧
      fields session !! "user_id" = Some (VStr (ObjectId_str (_id record))) ∧
      fields session !! "created_at" = Some (VDatetime 1700000060)).
Proof.
  assert (@signup sample_hashlib ann_signup sample_world =
            (Return {| AuthResponse.token := signup_token sample_world;
                       AuthResponse.name := VStr "Ann";
                       AuthResponse.email := VStr "a@x.com" |},
             world_with_ann)) as Hsignup by (vm_compute; reflexivity).
  assert (@login sample_hashlib ann_login world_with_ann =
            (Return {| AuthResponse.token := login_token world_with_ann;
                       AuthResponse.name := VStr "Ann";
                       AuthResponse.email := VStr "a@x.com" |},
             (@login sample_hashlib ann_login world_with_ann).2)) as Hlogin
    by (vm_compute; reflexivity).
  assert (signup_token sample_world
            = "101112131415161718191a1b1c1d1e1f2021222324252627") as Ht1
    by (vm_compute; reflexivity).
  assert (login_token world_with_ann
            = "28292a2b2c2d2e2f303132333435363738393a3b3c3d3e3f") as Ht2
    by (vm_compute; reflexivity).
  destruct (proj1 (@C5_one_session_per_success sample_hashlib) _ _ _ _ Hsignup)
    as (d & account & session & _ & _ & _ & _ & _ & Husers & _ & _
          & Hsessions & _ & _ & _ & Htoken & Huid & Hat & _).
  destruct (proj2 (@C5_one_session_per_success sample_hashlib) _ _ _ _ Hlogin)
    as (d' & record & session' & pos & _ & Hfound & _ & _ & _ & _ & _ & _
          & Hsessions' & _ & _ & Htoken' & Huid' & Hat' & _).
  cbn [AuthResponse.token] in Htoken, Htoken'.
  rewrite Ht1 in Htoken. rewrite Ht2 in Htoken'.
  assert (users sample_world = []) as Hu0 by (vm_compute; reflexivity).
  assert (sessions sample_world = []) as Hs0 by (vm_compute; reflexivity).
  assert (utc_clock sample_world (clock_reads sample_world) = 1700000000%Z)
    as Hc0 by (vm_compute; reflexivity).
  assert (utc_clock world_with_ann (clock_reads world_with_ann) = 1700000060%Z)
    as Hc1 by (vm_compute; reflexivity).
  rewrite Hu0 in Husers. rewrite Hs0 in Hsessions.
  rewrite Hc0 in Hat. rewrite Hc1 in Hat'.
  split; [exact Hsignup|]. split; [exact Ht1|]. split.
  { exists account, session. split; [exact Husers|].
    split; [exact Hsessions|]. split; [exact Htoken|].
    split; [exact Huid | exact Hat]. }
  split; [exact Hlogin|]. split; [exact Ht2|].
  exists record, session'. split; [exact Hfound|].
  split; [exact Hsessions'|]. split; [exact Htoken'|].
  split; [exact Huid' | exact Hat'].
Defined.

(** ** Properties of the store *)



(** C9: the user record a successful signup writes has the seven fields of
    [User] and no other, [password_hash] holding the derived key and
    [password_salt] the salt, and the session record its three; the password
    reaches the world through the derived key only; and no request changes
    or removes a user record: the users before a request, or before any
    sequence of requests, are a prefix of the users after, and [login] adds
    none. *)
Theorem C9_password_never_persisted `{Hashlib} :
  (forall (payload : SignupRequest.t) (w w' : World) (resp : AuthResponse.t),
      signup payload w = (Return resp, w') ->
      exists (record session : stored),
        users w' = users w ++ [record] ∧
        sessions w' = sessions w ++ [session] ∧
        dom (fields record) =
          ({[ "name"; "email"; "password_hash"; "password_salt";
              "avatar"; "role"; "is_active" ]} : gset string) ∧
        fields record !! "password" = None ∧
        fields record !! "password_hash" =
          Some (VStr (derived_key_hex (SignupRequest.password payload)
                        (random_bytes w (drawn w) 16))) ∧
        fields record !! "password_salt" =
          Some (VStr (bytes.hex (random_bytes w (drawn w) 16))) ∧
        fields record !! "name" = Some (VStr (SignupRequest.name payload)) ∧
        fields record !! "email" = Some (VStr (SignupRequest.email payload)) ∧
        fields record !! "avatar" = Some VNone ∧
        fields record !! "role" = Some (VStr "worker") ∧
        fields record !! "is_active" = Some (VBool true) ∧
        dom (fields session) =
          ({[ "user_id"; "token"; "created_at" ]} : gset string)) ∧
  (forall (payload payload' : SignupRequest.t) (w : World),
      SignupRequest.name payload = SignupRequest.name payload' ->
      SignupRequest.email payload = SignupRequest.email payload' ->
      derived_key_hex (SignupRequest.password payload)
        (random_bytes w (drawn w) 16) =
      derived_key_hex (SignupRequest.password payload')
        (random_bytes w (drawn w) 16) ->
      (signup payload w).2 = (signup payload' w).2) ∧
  (forall (req : request) (w : World),
      users w `prefix_of` users (handle req w)) ∧
  (forall (reqs : list request) (w : World),
      users w `prefix_of` users (serve reqs w)) ∧
  (forall (payload : LoginRequest.t) (w : World),
      users (login payload w).2 = users w).
Proof.
  split; [|split; [|split; [|split]]].
  - intros payload w w' resp Hrun.
    destruct (signup_inv _ _ _ _ Hrun) as (d & Hdb & Hd & Hnone & -> & ->).
    eexists _, _.
    split; [by apply users_signup_world|].
    split; [by apply sessions_signup_world|].
    cbn [fields]. split; [apply dump_dom|].
    repeat (split; [reflexivity|]). apply session_doc_dom.
  - intros payload payload' w Hname Hemail Hkey.
    destruct (db w) as [d|] eqn:Hdb.
    + destruct (reachable d) eqn:Hd.
      * destruct (database.first_match
                    (by_email (SignupRequest.email payload))
                    (database.collection d "user")) as [r|] eqn:Hr.
        -- rewrite (signup_existing payload _ d r) by done.
           rewrite (signup_existing payload' _ d r) by (by rewrite <- ?Hemail).
           done.
        -- rewrite (signup_new payload _ d) by done.
           rewrite (signup_new payload' _ d) by (by rewrite <- ?Hemail).
           cbn [snd]. unfold signup_world, signup_user.
           by rewrite Hname, Hemail, Hkey.
      * by rewrite !(signup_unreachable _ _ d).
    + by rewrite !signup_no_db.
  - apply users_handle.
  - apply users_serve.
  - intros payload w.
    destruct (login_cases payload w) as [Hdb | (d & r & w1 & Hdb & _ & ->)].
    + unfold users. by rewrite Hdb.
    + rewrite users_login_world. unfold users. by rewrite Hdb.
Qed.

Lemma C9_password_never_persisted_witness :
  exists (record session : stored),
    users world_with_ann = [record] ∧
    sessions world_with_ann = [session] ∧
    fields record !! "password" = None ∧
    fields record !! "password_salt" =
      Some (VStr "000102030405060708090a0b0c0d0e0f") ∧
    dom (fields session) =
      ({[ "user_id"; "token"; "created_at" ]} : gset string).
Proof.
  destruct (proj1 (@C9_password_never_persisted sample_hashlib)
              ann_signup sample_world world_with_ann
              {| AuthResponse.token := signup_token sample_world;
                 AuthResponse.name := VStr "Ann";
                 AuthResponse.email := VStr "a@x.com" |})
    as (record & session & Hu & Hs & _ & Hpw & _ & Hsalt & _ & _ & _ & _ & _ & Hd);
    [vm_compute; reflexivity|].
  exists record, session.
  split; [exact Hu|]. split; [exact Hs|]. split; [exact Hpw|].
  split; [exact Hsalt | exact Hd].
Defined.

(** ** Signup, then login *)

(** Whoever signed up can log in with the same password, at once and after
    any sequence of further requests. *)
Lemma signup_then_login `{Hashlib} (payload : SignupRequest.t)
    (reqs : list request) (w w1 : World) (resp : AuthResponse.t) :
  signup payload w = (Return resp, w1) ->
  exists (resp' : AuthResponse.t) (w2 : World),
    login {| LoginRequest.email := SignupRequest.email payload;
             LoginRequest.password := SignupRequest.password payload |}
      (serve reqs w1) = (Return resp', w2) ∧
    AuthResponse.name resp' = AuthResponse.name resp ∧
    AuthResponse.email resp' = AuthResponse.email resp.
Proof.
  intros Hrun.
  destruct (signup_inv _ _ _ _ Hrun) as (d & Hdb & Hd & Hnone & -> & ->).
  pose proof (signup_world_finds payload d w _ Hdb eq_refl Hnone) as Hfound.
  destruct (taken_after_requests reqs _ _ (signup_world payload d w) _
              eq_refl Hd Hfound) as (d' & Hdb' & Hd' & Hfound').
  unfold users in Hfound'. rewrite Hdb' in Hfound'.
  eexists _, _. split.
  - rewrite (login_found _ _ d' _ Hdb' Hd') by exact Hfound'.
    cbn [LoginRequest.password].
    change (record_get _ "password_salt")
      with (VStr (bytes.hex (random_bytes w (drawn w) 16))).
    rewrite (hash_password_supplied _ _ (random_bytes w (drawn w) 16)).
    + change (record_get _ "password_hash")
        with (VStr (derived_key_hex (SignupRequest.password payload)
                      (random_bytes w (drawn w) 16))).
      rewrite bool_decide_eq_false_2 by (intros ?; done). reflexivity.
    + apply hex_nonempty. intros E. apply (f_equal length) in E.
      by rewrite length_random_bytes in E.
    + apply fromhex_hex.
  - done.
Qed.

(** ** More on the salt of [hash_password] *)

Section SaltShape.

(** Induction over a string two characters at a time, as [bytes.fromhex]
    reads it. *)
Lemma string_ind2 (P : string -> Prop) :
  P EmptyString ->
  (forall c, P (String c EmptyString)) ->
  (forall c d s, P s -> P (String d s) -> P (String c (String d s))) ->
  forall s, P s.
Proof.
  intros H0 H1 H2 s.
  enough (P s ∧ forall c, P (String c s)) as [Hs _] by exact Hs.
  induction s as [|d s [IHs IHc]]; [by split|].
  split; [apply IHc|]. intros c. by apply H2.
Qed.

Lemma space_not_hexdigit (c : ascii) :
  bytes.is_space c = true -> bytes.is_hexdigit c = false.
Proof. destruct c as [[] [] [] [] [] [] [] []]; vm_compute; congruence. Qed.

Lemma is_hexdigit_digit_value (c : ascii) (n : N) :
  bytes.digit_value c = Some n -> bytes.is_hexdigit c = true.
Proof. unfold bytes.is_hexdigit. intros ->. by apply bool_decide_eq_true_2. Qed.

Lemma digit_value_upper (c : ascii) :
  bytes.digit_value (ascii_upper c) = bytes.digit_value c.
Proof. destruct c as [[] [] [] [] [] [] [] []]; reflexivity. Qed.

Lemma is_space_upper (c : ascii) :
  bytes.is_space (ascii_upper c) = bytes.is_space c.
Proof. destruct c as [[] [] [] [] [] [] [] []]; reflexivity. Qed.

(** What [bytes.fromhex] accepts holds hexadecimal digits and white space
    only, two digits for each byte it returns. *)
Lemma fromhex_shape (s : string) :
  forall raw,
    bytes.fromhex s = Some raw ->
    hexdigits_or_spaces s = true ∧ count_hexdigits s = 2 * length raw.
Proof.
  induction s as [|c|c d s IHs IHd] using string_ind2; intros raw.
  - intros [= <-]. done.
  - cbn. destruct (bytes.is_space c) eqn:Hc.
    + intros [= <-]. rewrite (space_not_hexdigit c Hc). done.
    + by destruct (bytes.digit_value c).
  - cbn [bytes.fromhex]. destruct (bytes.is_space c) eqn:Hc.
    + intros Hraw. destruct (IHd raw Hraw) as [Hall Hcount].
      cbn [hexdigits_or_spaces count_hexdigits] in *.
      rewrite Hc, (space_not_hexdigit c Hc). cbn. done.
    + destruct (bytes.digit_value c) as [hi|] eqn:Hhi; [|done].
      destruct (bytes.digit_value d) as [lo|] eqn:Hlo; [|done].
      destruct (bytes.fromhex s) as [raw'|] eqn:Hs; [|done].
      intros [= <-]. destruct (IHs raw' eq_refl) as [Hall Hcount].
      cbn [hexdigits_or_spaces count_hexdigits length].
      rewrite (is_hexdigit_digit_value c hi Hhi),
        (is_hexdigit_digit_value d lo Hlo), Hall, Hcount. cbn. lia.
Qed.

(** One step of [bytes.fromhex]. *)
Lemma fromhex_cons (c : ascii) (s : string) :
  bytes.fromhex (String c s) =
    if bytes.is_space c then bytes.fromhex s
    else
      match bytes.digit_value c, s with
      | Some hi, String d s' =>
          match bytes.digit_value d with
          | Some lo => cons (bytes.of_nibbles hi lo) <$> bytes.fromhex s'
          | None => None
          end
      | _, _ => None
      end.
Proof. reflexivity. Qed.

(** The case of the letters makes no difference to [bytes.fromhex]. *)
Lemma fromhex_upper (s : string) :
  bytes.fromhex (upper_ascii s) = bytes.fromhex s.
Proof.
  induction s as [|c|c d s IHs IHd] using string_ind2.
  - done.
  - cbn. by rewrite is_space_upper, digit_value_upper.
  - change (upper_ascii (String c (String d s)))
      with (String (ascii_upper c) (upper_ascii (String d s))).
    rewrite (fromhex_cons (ascii_upper c)), (fromhex_cons c).
    rewrite is_space_upper, digit_value_upper, IHd.
    destruct (bytes.is_space c); [done|].
    destruct (bytes.digit_value c); [|done].
    cbn [upper_ascii]. by rewrite digit_value_upper, IHs.
Qed.

Lemma upper_ascii_nonempty (s : string) :
  s ≠ EmptyString -> upper_ascii s ≠ EmptyString.
Proof. by destruct s. Qed.

End SaltShape.

(** A salt that [hash_password] was given and accepted holds hexadecimal
    digits and ASCII white space only, two digits for each byte of the raw
    salt the key was derived under; it is returned as it was given and
    nothing was drawn. *)
Theorem hash_password_accepted_salt_shape `{Hashlib} (P S s h : string)
    (w w' : World) :
  S ≠ EmptyString ->
  hash_password P (VStr S) w = (Return (s, h), w') ->
  s = S ∧ w' = w ∧
  hexdigits_or_spaces S = true ∧
  exists raw,
    bytes.fromhex S = Some raw ∧
    count_hexdigits S = 2 * length raw ∧
    h = derived_key_hex P raw.
Proof.
  intros HS Hrun. destruct (bytes.fromhex S) as [raw|] eqn:Hraw.
  - rewrite (hash_password_supplied _ _ raw) in Hrun by done.
    injection Hrun as <- <- <-.
    destruct (fromhex_shape S raw Hraw) as [Hall Hcount]. eauto 10.
  - rewrite hash_password_malformed in Hrun by done. discriminate.
Qed.

Lemma hash_password_accepted_salt_shape_witness :
  "0a 0B" ≠ EmptyString ∧
  hexdigits_or_spaces "0a 0B" = true ∧
  exists raw,
    bytes.fromhex "0a 0B" = Some raw ∧
    count_hexdigits "0a 0B" = 2 * length raw.
Proof.
  split; [discriminate|].
  destruct (@hash_password_accepted_salt_shape sample_hashlib
              "hunter2" "0a 0B" "0a 0B"
              (@derived_key_hex sample_hashlib "hunter2" [x0a; x0b])
              sample_world sample_world)
    as (_ & _ & Hall & raw & Hraw & Hcount & _);
    [discriminate | vm_compute; reflexivity |].
  split; [exact Hall|]. exists raw. split; [exact Hraw | exact Hcount].
Defined.

(** The case of the hexadecimal digits of a salt that is given makes no
    difference to the outcome of [hash_password]: with the letters of the
    salt in upper case the hash is the same, the salt returned is the one
    given, and a salt that is refused is refused as before. *)
Theorem hash_password_salt_case_insensitive `{Hashlib} (P S : string)
    (w : World) :
  S ≠ EmptyString ->
  hash_password P (VStr (upper_ascii S)) w =
    match hash_password P (VStr S) w with
    | (Return (s, h), w') => (Return (upper_ascii s, h), w')
    | (Raise e, w') => (Raise e, w')
    end.
Proof.
  intros HS. pose proof (upper_ascii_nonempty S HS) as HU.
  destruct (bytes.fromhex S) as [raw|] eqn:Hraw.
  - rewrite (hash_password_supplied _ S raw) by done.
    by rewrite (hash_password_supplied _ _ raw) by (by rewrite ?fromhex_upper).
  - rewrite (hash_password_malformed _ S) by done.
    by rewrite hash_password_malformed by (by rewrite ?fromhex_upper).
Qed.

Lemma hash_password_salt_case_insensitive_witness :
  "0a0b" ≠ EmptyString ∧
  @hash_password sample_hashlib "hunter2" (VStr "0A0B") sample_world =
    (Return ("0A0B", @derived_key_hex sample_hashlib "hunter2" [x0a; x0b]),
     sample_world).
Proof.
  split; [discriminate|].
  pose proof (@hash_password_salt_case_insensitive sample_hashlib
                "hunter2" "0a0b" sample_world) as Hcase.
  rewrite (@hash_password_supplied sample_hashlib _ "0a0b" [x0a; x0b]) in Hcase
    by (discriminate || reflexivity).
  apply Hcase. discriminate.
Defined.

(** What the salt argument decides. A salt that is false in Python's sense,
    omitted, empty or [False], is replaced like an omitted one; a salt that
    is true and not a string ends in [TypeError], with nothing drawn; and
    whatever the salt and the outcome, store and clock are left alone and
    sixteen bytes are drawn exactly when the salt was false. *)
Theorem hash_password_salt_argument `{Hashlib} (P : string) (salt : value)
    (w : World) :
  (truthy salt = false ->
   hash_password P salt w = hash_password P VNone w) ∧
  (truthy salt = true -> (forall s, salt ≠ VStr s) ->
   hash_password P salt w = (Raise TypeError, w)) ∧
  db (hash_password P salt w).2 = db w ∧
  clock_reads (hash_password P salt w).2 = clock_reads w ∧
  drawn (hash_password P salt w).2 =
    drawn w + (if truthy salt then 0 else 16).
Proof.
  split; [|split].
  - intros Hs. by rewrite !hash_password_fresh.
  - intros Hs Hstr. unfold hash_password. rewrite Hs.
    cbv [mbind M_bind mret M_ret raise].
    destruct salt; try done. by destruct (Hstr s).
  - pose proof (hash_password_frame P salt w) as (Hdb & Hreads & _).
    split; [exact Hdb|]. split; [exact Hreads|].
    destruct (truthy salt) eqn:Hs.
    + unfold hash_password. rewrite Hs. cbv [mbind M_bind mret M_ret raise].
      destruct salt; cbn; try lia. destruct (bytes.fromhex s); cbn; lia.
    + by rewrite hash_password_fresh.
Qed.

Lemma hash_password_salt_argument_witness :
  truthy (VBool false) = false ∧
  truthy (VObjectId 5) = true ∧
  @hash_password sample_hashlib "hunter2" (VBool false) sample_world =
    @hash_password sample_hashlib "hunter2" VNone sample_world ∧
  @hash_password sample_hashlib "hunter2" (VObjectId 5) sample_world =
    (Raise TypeError, sample_world).
Proof.
  split; [reflexivity|]. split; [reflexivity|]. split.
  - apply (proj1 (@hash_password_salt_argument sample_hashlib "hunter2"
                    (VBool false) sample_world)). reflexivity.
  - apply (proj1 (proj2 (@hash_password_salt_argument sample_hashlib "hunter2"
                           (VObjectId 5) sample_world)));
      [reflexivity | discriminate].
Defined.

Lemma signup_then_login_witness :
  exists (resp' : AuthResponse.t) (w2 : World),
    @login sample_hashlib
      {| LoginRequest.email := SignupRequest.email ann_signup;
         LoginRequest.password := SignupRequest.password ann_signup |}
      (@serve sample_hashlib [Login bob_login; Signup carol_signup]
         world_with_ann) = (Return resp', w2) ∧
    AuthResponse.name resp' = VStr "Ann".
Proof.
  destruct (@signup_then_login sample_hashlib ann_signup
              [Login bob_login; Signup carol_signup] sample_world world_with_ann
              {| AuthResponse.token := signup_token sample_world;
                 AuthResponse.name := VStr "Ann";
                 AuthResponse.email := VStr "a@x.com" |})
    as (resp' & w2 & Hrun & Hname & _); [vm_compute; reflexivity|].
  exists resp', w2. split; [exact Hrun | exact Hname].
Defined.

Lemma signup_again_after_requests_witness :
  SignupRequest.email ann_signup = SignupRequest.email ann_signup ∧
  @signup sample_hashlib ann_signup
    (@serve sample_hashlib [Login bob_login; Signup carol_signup]
       world_with_ann) =
    (Raise (HTTPException 400 "Email already in use"),
     @serve sample_hashlib [Login bob_login; Signup carol_signup]
       world_with_ann).
Proof.
  split; [reflexivity|].
  apply (@signup_again_after_requests sample_hashlib ann_signup ann_signup
           [Login bob_login; Signup carol_signup] sample_world world_with_ann
           {| AuthResponse.token := signup_token sample_world;
              AuthResponse.name := VStr "Ann";
              AuthResponse.email := VStr "a@x.com" |});
    [reflexivity | vm_compute; reflexivity].
Defined.

(** ** When the endpoints succeed *)

(** [signup] returns exactly when there is a store, it answers, and no user
    in it has the email of the request; the password, the name and the
    sessions have no say. *)
Theorem signup_returns_iff `{Hashlib} (payload : SignupRequest.t) (w : World) :
  (exists resp w', signup payload w = (Return resp, w')) <->
  (exists d,
      db w = Some d ∧ reachable d = true ∧
      database.first_match (by_email (SignupRequest.email payload))
        (database.collection d "user") = None).
Proof.
  split.
  - intros (resp & w' & Hrun).
    destruct (signup_inv _ _ _ _ Hrun) as (d & Hdb & Hd & Hnone & _).
    by exists d.
  - intros (d & Hdb & Hd & Hnone). eexists _, _. by apply (signup_new _ _ d).
Qed.

(** [login] returns exactly when the store answers, a user has the email of
    the request, and the hash recomputed under the salt of the first such
    user is the string stored as that user's [password_hash]. *)
Theorem login_returns_iff `{Hashlib} (payload : LoginRequest.t) (w : World) :
  (exists resp w', login payload w = (Return resp, w')) <->
  (exists d record s h w1,
      db w = Some d ∧ reachable d = true ∧
      database.first_match (by_email (LoginRequest.email payload))
        (database.collection d "user") = Some record ∧
      hash_password (LoginRequest.password payload)
        (record_get record "password_salt") w = (Return (s, h), w1) ∧
      record_get record "password_hash" = VStr h).
Proof.
  split.
  - intros (resp & w' & Hrun).
    destruct (login_inv _ _ _ _ Hrun)
      as (d & record & s & h & w1 & Hdb & Hd & Hfound & Hhp & Hhash & _).
    by exists d, record, s, h, w1.
  - intros (d & record & s & h & w1 & Hdb & Hd & Hfound & Hhp & Hhash).
    eexists _, _. rewrite (login_found _ _ d record), Hhp by done.
    rewrite bool_decide_eq_false_2 by (rewrite Hhash; intros ?; done).
    reflexivity.
Qed.

(** The answers name the account that was asked for: [signup] returns the
    name and the email of the request, and [login], which takes both from
    the stored record, returns the email of the request too. *)
Theorem responses_echo_the_request `{Hashlib} :
  (forall (payload : SignupRequest.t) (w w' : World) (resp : AuthResponse.t),
      signup payload w = (Return resp, w') ->
      AuthResponse.name resp = VStr (SignupRequest.name payload) ∧
      AuthResponse.email resp = VStr (SignupRequest.email payload)) ∧
  (forall (payload : LoginRequest.t) (w w' : World) (resp : AuthResponse.t),
      login payload w = (Return resp, w') ->
      AuthResponse.email resp = VStr (LoginRequest.email payload)).
Proof.
  split.
  - intros payload w w' resp Hrun.
    destruct (signup_inv _ _ _ _ Hrun) as (d & _ & _ & _ & -> & _). done.
  - intros payload w w' resp Hrun.
    destruct (login_inv _ _ _ _ Hrun)
      as (d & record & s & h & w1 & _ & _ & Hfound & _ & _ & -> & _).
    destruct (first_match_Some _ _ _ Hfound) as [_ Hmatch].
    apply matches_by_email in Hmatch.
    cbn [AuthResponse.email]. unfold record_get, get.
    rewrite bool_decide_eq_false_2 by done. by rewrite Hmatch.
Qed.

Lemma responses_echo_the_request_witness :
  AuthResponse.email
    {| AuthResponse.token := login_token world_with_ann;
       AuthResponse.name := VStr "Ann";
       AuthResponse.email := VStr "a@x.com" |} =
  VStr (LoginRequest.email ann_login).
Proof.
  apply (proj2 (@responses_echo_the_request sample_hashlib) ann_login
           world_with_ann (@login sample_hashlib ann_login world_with_ann).2).
  vm_compute. reflexivity.
Defined.

(** Two signups that return have minted the same token only if the random
    source delivered the same twenty-four bytes to both, and two logins
    likewise: the hexadecimal form loses nothing. *)
Theorem tokens_equal_only_on_equal_bytes `{Hashlib} :
  (forall (p1 p2 : SignupRequest.t) (w1 w1' w2 w2' : World)
          (r1 r2 : AuthResponse.t),
      signup p1 w1 = (Return r1, w1') ->
      signup p2 w2 = (Return r2, w2') ->
      (AuthResponse.token r1 = AuthResponse.token r2 <->
       random_bytes w1 (drawn w1 + 16) 24 = random_bytes w2 (drawn w2 + 16) 24)) ∧
  (forall (p1 p2 : LoginRequest.t) (w1 w1' w2 w2' : World)
          (r1 r2 : AuthResponse.t),
      login p1 w1 = (Return r1, w1') ->
      login p2 w2 = (Return r2, w2') ->
      (AuthResponse.token r1 = AuthResponse.token r2 <->
       random_bytes w1 (drawn w1' - 24) 24 = random_bytes w2 (drawn w2' - 24) 24)).
Proof.
  split.
  - intros p1 p2 w1 w1' w2 w2' r1 r2 H1 H2.
    destruct (signup_inv _ _ _ _ H1) as (d1 & _ & _ & _ & -> & _).
    destruct (signup_inv _ _ _ _ H2) as (d2 & _ & _ & _ & -> & _).
    cbn [AuthResponse.token]. unfold signup_token.
    split; [apply hex_inj | by intros ->].
  - intros p1 p2 w1 w1' w2 w2' r1 r2 H1 H2.
    destruct (login_inv _ _ _ _ H1)
      as (d1 & c1 & s1 & h1 & v1 & _ & _ & _ & Hhp1 & _ & -> & ->).
    destruct (login_inv _ _ _ _ H2)
      as (d2 & c2 & s2 & h2 & v2 & _ & _ & _ & Hhp2 & _ & -> & ->).
    cbn [AuthResponse.token login_world drawn]. unfold login_token.
    replace (drawn v1 + 24 - 24) with (drawn v1) by lia.
    replace (drawn v2 + 24 - 24) with (drawn v2) by lia.
    assert (random_bytes v1 (drawn v1) 24 = random_bytes w1 (drawn v1) 24) as ->.
    { destruct (hash_password_inv _ _ _ _ _ _ Hhp1) as (_ & _ & [-> | ->]); done. }
    assert (random_bytes v2 (drawn v2) 24 = random_bytes w2 (drawn v2) 24) as ->.
    { destruct (hash_password_inv _ _ _ _ _ _ Hhp2) as (_ & _ & [-> | ->]); done. }
    split; [apply hex_inj | by intros ->].
Qed.

Lemma tokens_equal_only_on_equal_bytes_witness :
  (signup_token sample_world = signup_token world_with_ann <->
   random_bytes sample_world (drawn sample_world + 16) 24 =
   random_bytes world_with_ann (drawn world_with_ann + 16) 24).
Proof.
  apply (proj1 (@tokens_equal_only_on_equal_bytes sample_hashlib)
           ann_signup carol_signup
           sample_world world_with_ann
           world_with_ann (@signup sample_hashlib carol_signup world_with_ann).2
           {| AuthResponse.token := signup_token sample_world;
              AuthResponse.name := VStr "Ann";
              AuthResponse.email := VStr "a@x.com" |}
           {| AuthResponse.token := signup_token world_with_ann;
              AuthResponse.name := VStr "Carol";
              AuthResponse.email := VStr "c@x.com" |});
    vm_compute; reflexivity.
Defined.

Lemma signup_returns_iff_witness :
  (exists resp w', @signup sample_hashlib carol_signup world_with_ann
                   = (Return resp, w')) ∧
  ¬ (exists resp w', @signup sample_hashlib ann_signup world_with_ann
                     = (Return resp, w')).
Proof.
  split.
  - apply (proj2 (@signup_returns_iff sample_hashlib carol_signup world_with_ann)).
    exists (default sample_store (db world_with_ann)).
    repeat split; vm_compute; reflexivity.
  - intros Hret.
    apply (proj1 (@signup_returns_iff sample_hashlib ann_signup world_with_ann))
      in Hret.
    destruct Hret as (d & Hdb & _ & Hnone).
    vm_compute in Hdb. injection Hdb as <-. vm_compute in Hnone. discriminate.
Defined.

Lemma login_returns_iff_witness :
  exists resp w', @login sample_hashlib bob_login world_with_bob
                  = (Return resp, w').
Proof.
  apply (proj2 (@login_returns_iff sample_hashlib bob_login world_with_bob)).
  exists {| reachable := true;
            collections := {[ "user" := [bob_deactivated] ]};
            next_oid := 8 |},
         bob_deactivated, "00ff",
         (@derived_key_hex sample_hashlib "hunter2" [x00; xff]),
         world_with_bob.
  repeat split; vm_compute; reflexivity.
Defined.

(** ** What the endpoints never do *)

Section Never.
Context `{Hashlib}.


(** The sessions before a request are a prefix of the sessions after. *)
Lemma sessions_handle (req : request) (w : World) :
  sessions w `prefix_of` sessions (handle req w).
Proof.
  destruct req as [payload|payload]; cbn [handle].
  - destruct (signup_cases payload w) as [-> | [[Hdb ->] | (d & Hdb & _ & ->)]].
    + done.
    + unfold sessions. cbn [set_drawn db]. done.
    + rewrite sessions_signup_world by done. by eexists.
  - destruct (login_cases payload w) as [Hdb | (d & r & w1 & Hdb & _ & ->)].
    + unfold sessions. by rewrite Hdb.
    + rewrite sessions_login_world. unfold sessions. rewrite Hdb. by eexists.
Qed.

(** A collection that is neither the users nor the sessions is the same
    after a request. *)
Lemma other_collection_handle (req : request) (w : World) (d d' : Database)
    (name : string) :
  name ≠ "user" -> name ≠ "session" ->
  db w = Some d -> db (handle req w) = Some d' ->
  database.collection d' name = database.collection d name.
Proof.
  intros Hu Hs Hdb Hdb'. destruct req as [payload|payload]; cbn [handle] in Hdb'.
  - destruct (signup_cases payload w)
      as [Hw | [[Hnone _] | (d0 & Hdb0 & _ & Hw)]].
    + rewrite Hw in Hdb'. congruence.
    + congruence.
    + rewrite Hw in Hdb'. cbn [signup_world db] in Hdb'.
      injection Hdb' as <-. rewrite !collection_insert_ne by done. congruence.
  - destruct (login_cases payload w) as [Hsame | (d0 & r & w1 & Hdb0 & _ & Hw)].
    + congruence.
    + rewrite Hw in Hdb'. cbn [login_world db] in Hdb'.
      injection Hdb' as <-. rewrite collection_insert_ne by done. congruence.
Qed.

End Never.

(** No request removes or changes a session: the sessions before any
    sequence of requests are a prefix of the sessions after, and one request
    adds one session at most. *)
Theorem sessions_only_grow `{Hashlib} :
  (forall (reqs : list request) (w : World),
      sessions w `prefix_of` sessions (serve reqs w)) ∧
  (forall (req : request) (w : World),
      length (sessions (handle req w)) <= S (length (sessions w))).
Proof.
  split.
  - intros reqs. induction reqs as [|req reqs IH]; intros w; cbn [serve]; [done|].
    etrans; [apply sessions_handle | apply IH].
  - intros [payload|payload] w; cbn [handle].
    + destruct (signup_cases payload w) as [-> | [[Hdb ->] | (d & Hdb & _ & ->)]].
      * lia.
      * unfold sessions. cbn [set_drawn db]. lia.
      * rewrite sessions_signup_world, length_app by done. cbn. lia.
    + destruct (login_cases payload w) as [Hdb | (d & r & w1 & Hdb & _ & ->)].
      * unfold sessions. rewrite Hdb. lia.
      * rewrite sessions_login_world, length_app. unfold sessions.
        rewrite Hdb. cbn. lia.
Qed.

(** The two endpoints write to the users and to the sessions only: any other
    collection of the store is the same after any sequence of requests. *)
Theorem other_collections_untouched `{Hashlib} (reqs : list request)
    (w : World) (d d' : Database) (name : string) :
  name ≠ "user" -> name ≠ "session" ->
  db w = Some d -> db (serve reqs w) = Some d' ->
  database.collection d' name = database.collection d name.
Proof.
  intros Hu Hs. revert w d.
  induction reqs as [|req reqs IH]; intros w d Hdb Hdb'; cbn [serve] in Hdb'.
  - congruence.
  - destruct (db (handle req w)) as [d1|] eqn:Hdb1.
    + rewrite (IH _ d1 Hdb1 Hdb').
      by apply (other_collection_handle req w d d1).
    + exfalso. destruct req as [payload|payload]; cbn [handle] in Hdb1.
      * destruct (signup_cases payload w)
          as [Hw | [[Hnone _] | (d0 & _ & _ & Hw)]].
        -- rewrite Hw in Hdb1. congruence.
        -- congruence.
        -- rewrite Hw in Hdb1. cbn [signup_world db] in Hdb1. discriminate.
      * destruct (login_cases payload w) as [Hsame | (d0 & r & w1 & _ & _ & Hw)].
        -- congruence.
        -- rewrite Hw in Hdb1. cbn [login_world db] in Hdb1. discriminate.
Qed.

Lemma other_collections_untouched_witness :
  "blogpost" ≠ "user" ∧ "blogpost" ≠ "session" ∧
  database.collection
    (default sample_store
       (db (@serve sample_hashlib [Signup ann_signup; Login ann_login]
              sample_world)))
    "blogpost" =
  database.collection sample_store "blogpost".
Proof.
  split; [discriminate|]. split; [discriminate|].
  apply (@other_collections_untouched sample_hashlib
           [Signup ann_signup; Login ann_login] sample_world);
    [discriminate | discriminate | reflexivity | vm_compute; reflexivity].
Defined.



(** A stored user whose salt is a string that [bytes.fromhex] refuses can
    not log in, whatever the password: [login] ends in the [ValueError],
    which is no error kind of its own, and no session is written. With a
    stored salt that is true and not a string it ends in [TypeError]. *)
Theorem login_with_corrupt_salt `{Hashlib} (payload : LoginRequest.t)
    (w : World) (d : Database) (record : stored) :
  db w = Some d -> reachable d = true ->
  database.first_match (by_email (LoginRequest.email payload))
    (database.collection d "user") = Some record ->
  (forall S : string,
      record_get record "password_salt" = VStr S ->
      S ≠ EmptyString -> ¬ well_formed_hex S ->
      login payload w = (Raise ValueError, w)) ∧
  (truthy (record_get record "password_salt") = true ->
   (forall S, record_get record "password_salt" ≠ VStr S) ->
   login payload w = (Raise TypeError, w)) ∧
  error_kind ValueError = None ∧ error_kind TypeError = None.
Proof.
  intros Hdb Hd Hfound. split; [|split; [|done]].
  - intros S Hsalt HS Hbad.
    rewrite (login_found _ _ d record), Hsalt by done.
    rewrite hash_password_malformed; [done | done |].
    destruct (bytes.fromhex S) eqn:E; [|done]. exfalso. apply Hbad. by eexists.
  - intros Hs Hstr. rewrite (login_found _ _ d record) by done.
    unfold hash_password. rewrite Hs. cbv [mbind M_bind mret M_ret raise].
    destruct (record_get record "password_salt"); try done.
    by destruct (Hstr s).
Qed.

Lemma login_with_corrupt_salt_witness :
  record_get dan_corrupt "password_salt" = VStr "zz" ∧
  "zz" ≠ EmptyString ∧ ¬ well_formed_hex "zz" ∧
  @login sample_hashlib dan_login world_with_dan =
    (Raise ValueError, world_with_dan).
Proof.
  split; [vm_compute; reflexivity|]. split; [discriminate|].
  split; [intros [raw Hraw]; discriminate|].
  apply (proj1 (@login_with_corrupt_salt sample_hashlib dan_login world_with_dan
                  {| reachable := true;
                     collections := {[ "user" := [dan_corrupt] ]};
                     next_oid := 10 |}
                  dan_corrupt eq_refl eq_refl
                  ltac:(vm_compute; reflexivity)) "zz").
  - vm_compute. reflexivity.
  - discriminate.
  - intros [raw Hraw]; discriminate.
Defined.

(** Signups under different emails do not stand in each other's way: after
    a signup that returned, a signup under another email returns if that
    email was free before. *)
Theorem signup_other_email `{Hashlib} (first second : SignupRequest.t)
    (w w1 : World) (resp : AuthResponse.t) :
  signup first w = (Return resp, w1) ->
  SignupRequest.email second ≠ SignupRequest.email first ->
  database.first_match (by_email (SignupRequest.email second)) (users w) = None ->
  exists (resp2 : AuthResponse.t) (w2 : World),
    signup second w1 = (Return resp2, w2) ∧
    length (users w2) = S (S (length (users w))).
Proof.
  intros Hfirst Hne Hfree.
  destruct (signup_inv _ _ _ _ Hfirst) as (d & Hdb & Hd & Hnone & _ & ->).
  assert (database.first_match (by_email (SignupRequest.email second))
            (users (signup_world first d w)) = None) as Hfree1.
  { rewrite users_signup_world, first_match_app, Hfree by done.
    cbn [database.first_match].
    destruct (database.matches _ _) eqn:Hm; [|done].
    apply matches_by_email in Hm. cbn [fields] in Hm.
    rewrite dump_email in Hm. cbn in Hm. congruence. }
  eexists _, _. split.
  - eapply signup_new; [reflexivity | exact Hd | exact Hfree1].
  - rewrite users_signup_world by reflexivity.
    rewrite length_app, users_signup_world, length_app by done. cbn. lia.
Qed.

Lemma signup_other_email_witness :
  SignupRequest.email carol_signup ≠ SignupRequest.email ann_signup ∧
  exists (resp2 : AuthResponse.t) (w2 : World),
    @signup sample_hashlib carol_signup world_with_ann = (Return resp2, w2) ∧
    length (users w2) = 2.
Proof.
  split; [discriminate|].
  apply (@signup_other_email sample_hashlib ann_signup carol_signup
           sample_world world_with_ann
           {| AuthResponse.token := signup_token sample_world;
              AuthResponse.name := VStr "Ann";
              AuthResponse.email := VStr "a@x.com" |});
    [vm_compute; reflexivity | discriminate | reflexivity].
Defined.

(** ** The contact form *)

Section Contact.

Lemma submit_contact_run (payload : ContactRequest.t) (w : World) (d : Database) :
  db w = Some d -> reachable d = true ->
  submit_contact payload w =
    (Return {| ContactResponse.id := VObjectId (next_oid d);
               ContactResponse.status := "received" |},
     set_db (Some (database.insert "contactmessage"
                     (ContactMessage.dump (ContactMessage_of payload)) d)) w).
Proof.
  intros Hdb Hd. unfold submit_contact.
  cbv [mbind M_bind mret M_ret database.create_document database.insert_one].
  by rewrite Hdb, Hd.
Qed.

Lemma submit_contact_fails (payload : ContactRequest.t) (w : World) :
  store_unreachable w ->
  submit_contact payload w = (Raise StorageFault, w).
Proof.
  unfold store_unreachable, submit_contact. intros Hw.
  cbv [mbind M_bind mret M_ret database.create_document database.insert_one].
  destruct (db w) as [d|]; [by rewrite Hw | done].
Qed.

Lemma contact_dump_dom (m : ContactMessage.t) :
  dom (ContactMessage.dump m) =
    ({[ "name"; "email"; "message"; "company"; "topic" ]} : gset string).
Proof.
  unfold ContactMessage.dump. rewrite !dom_insert_L, dom_singleton_L. set_solver.
Qed.

End Contact.

(** [submit_contact] returns exactly when the store answers. It then returns
    the identifier the store generated and the status "received", and has
    put one record at the end of the contact messages: the five fields of
    the request and no other, [None] for a company or a topic that was left
    out. Users and sessions are as they were. *)
Theorem submit_contact_stores_the_message (payload : ContactRequest.t)
    (w w' : World) (resp : ContactResponse.t) :
  submit_contact payload w = (Return resp, w') ->
  exists (d : Database) (record : stored),
    db w = Some d ∧ reachable d = true ∧
    resp = {| ContactResponse.id := VObjectId (_id record);
              ContactResponse.status := "received" |} ∧
    contact_messages w' = contact_messages w ++ [record] ∧
    dom (fields record) =
      ({[ "name"; "email"; "message"; "company"; "topic" ]} : gset string) ∧
    fields record !! "name" = Some (VStr (ContactRequest.name payload)) ∧
    fields record !! "email" = Some (VStr (ContactRequest.email payload)) ∧
    fields record !! "message" = Some (VStr (ContactRequest.message payload)) ∧
    fields record !! "company" =
      Some (match ContactRequest.company payload with
            | Some c => VStr c
            | None => VNone
            end) ∧
    fields record !! "topic" =
      Some (match ContactRequest.topic payload with
            | Some c => VStr c
            | None => VNone
            end) ∧
    users w' = users w ∧ sessions w' = sessions w.
Proof.
  intros Hrun. destruct (db w) as [d|] eqn:Hdb.
  - destruct (reachable d) eqn:Hd.
    + rewrite (submit_contact_run _ _ d) in Hrun by done.
      injection Hrun as <- <-.
      exists d, {| _id := next_oid d;
                   fields := ContactMessage.dump (ContactMessage_of payload) |}.
      split; [done|]. split; [done|]. split; [done|].
      split; [unfold contact_messages; cbn [set_db db];
              by rewrite Hdb, collection_insert|].
      split; [apply contact_dump_dom|].
      repeat (split; [reflexivity|]).
      unfold users, sessions. cbn [set_db db].
      by rewrite Hdb, !collection_insert_ne.
    + rewrite submit_contact_fails in Hrun; [discriminate|].
      unfold store_unreachable. by rewrite Hdb.
  - rewrite submit_contact_fails in Hrun; [discriminate|].
    unfold store_unreachable. by rewrite Hdb.
Qed.

Lemma submit_contact_stores_the_message_witness :
  exists (d : Database) (record : stored),
    db sample_world = Some d ∧
    contact_messages (submit_contact ann_contact sample_world).2 = [record] ∧
    fields record !! "company" = Some VNone ∧
    fields record !! "topic" = Some (VStr "sales").
Proof.
  destruct (submit_contact_stores_the_message ann_contact sample_world
              (submit_contact ann_contact sample_world).2
              {| ContactResponse.id := VObjectId 1;
                 ContactResponse.status := "received" |})
    as (d & record & Hdb & _ & _ & Hmsgs & _ & _ & _ & _ & Hcompany & Htopic & _);
    [vm_compute; reflexivity|].
  exists d, record. split; [exact Hdb|]. split; [exact Hmsgs|].
  split; [exact Hcompany | exact Htopic].
Defined.

(** The contact form keeps every submission: the same request sent twice to
    a store that answers is answered "received" twice and leaves two records
    with the same fields under two different identifiers. *)
Theorem submit_contact_twice (payload : ContactRequest.t) (w : World)
    (d : Database) :
  db w = Some d -> reachable d = true ->
  exists (id1 id2 : N),
    id1 ≠ id2 ∧
    (submit_contact payload w).1 =
      Return {| ContactResponse.id := VObjectId id1;
                ContactResponse.status := "received" |} ∧
    (submit_contact payload (submit_contact payload w).2).1 =
      Return {| ContactResponse.id := VObjectId id2;
                ContactResponse.status := "received" |} ∧
    contact_messages (submit_contact payload (submit_contact payload w).2).2 =
      contact_messages w ++
        [{| _id := id1;
            fields := ContactMessage.dump (ContactMessage_of payload) |};
         {| _id := id2;
            fields := ContactMessage.dump (ContactMessage_of payload) |}].
Proof.
  intros Hdb Hd. exists (next_oid d), (next_oid d + 1)%N.
  split; [lia|].
  rewrite (submit_contact_run _ _ d) by done. cbn [fst snd].
  split; [done|].
  rewrite (submit_contact_run _ _
             (database.insert "contactmessage"
                (ContactMessage.dump (ContactMessage_of payload)) d))
    by done.
  cbn [fst snd]. split; [done|].
  unfold contact_messages. cbn [set_db db].
  rewrite Hdb, !collection_insert, <- app_assoc. done.
Qed.

Lemma submit_contact_twice_witness :
  exists (id1 id2 : N),
    id1 ≠ id2 ∧
    length (contact_messages
              (submit_contact ann_contact
                 (submit_contact ann_contact sample_world).2).2) = 2.
Proof.
  destruct (submit_contact_twice ann_contact sample_world sample_store
              eq_refl eq_refl) as (id1 & id2 & Hne & _ & _ & Hmsgs).
  exists id1, id2. split; [exact Hne|]. rewrite Hmsgs. reflexivity.
Defined.

(** ** The blog feed *)

Section BlogFeed.
Context {V : Type}.
Variable py_None : V.
Variable py_truth : V -> bool.
Variable get_documents : string -> gmap string V -> nat -> M (list (gmap string V)).
Variable BlogPost_validate : gmap string V -> outcome BlogPost.t.

(** The loop, from any posts collected so far: it returns them with the
    posts of the documents left, or raises what the first document that
    fails the validation raises. *)
Lemma list_blog_loop_run (docs : list (gmap string V)) (acc : list BlogPost.t)
    (w : World) :
  (forall posts,
      Forall2 (fun d p => BlogPost_validate (clean_document py_None py_truth d)
                          = Return p) docs posts ->
      list_blog_loop py_None py_truth BlogPost_validate docs acc w
        = (Return (acc ++ posts), w)) ∧
  (forall good d bad posts e,
      docs = good ++ d :: bad ->
      Forall2 (fun d p => BlogPost_validate (clean_document py_None py_truth d)
                          = Return p) good posts ->
      BlogPost_validate (clean_document py_None py_truth d) = Raise e ->
      list_blog_loop py_None py_truth BlogPost_validate docs acc w
        = (Raise e, w)).
Proof.
  revert acc. induction docs as [|d0 docs IH]; intros acc; split.
  - intros posts Hall. inversion Hall; subst. by rewrite app_nil_r.
  - intros good d bad posts e Hdocs. by destruct good.
  - intros posts Hall. inversion Hall as [|? p ? posts' Hd Hrest]; subst.
    cbn [list_blog_loop]. rewrite Hd.
    rewrite (proj1 (IH (acc ++ [p])) posts' Hrest). by rewrite <- app_assoc.
  - intros good d bad posts e Hdocs Hall Hbad. cbn [list_blog_loop].
    destruct good as [|g good].
    + injection Hdocs as -> ->. by rewrite Hbad.
    + injection Hdocs as -> ->.
      inversion Hall as [|? p ? posts' Hd Hrest]; subst. rewrite Hd.
      exact (proj2 (IH (acc ++ [p])) good d bad posts' e eq_refl Hrest Hbad).
Qed.

End BlogFeed.

(** What [list_blog] does to a document before it validates it, given that
    Python's [None] is false: the identifier is gone; [published_at] is
    always there, with the value it had if that was true and with [None] if
    it was false or missing; every other field is as it was; and doing it
    twice changes nothing more. *)
Theorem clean_document_normalises {V : Type} (py_None : V) (py_truth : V -> bool)
    (d : gmap string V) :
  py_truth py_None = false ->
  clean_document py_None py_truth d !! "_id" = None ∧
  clean_document py_None py_truth d !! "published_at" =
    Some (match d !! "published_at" with
          | Some v => if py_truth v then v else py_None
          | None => py_None
          end) ∧
  (forall k : string,
      k ≠ "_id" -> k ≠ "published_at" ->
      clean_document py_None py_truth d !! k = d !! k) ∧
  clean_document py_None py_truth (clean_document py_None py_truth d) =
    clean_document py_None py_truth d.
Proof.
  intros Hnone.
  assert (forall d0 : gmap string V,
             d0 !! "_id" = None ->
             clean_document py_None py_truth d0 =
               match d0 !! "published_at" with
               | Some v => if py_truth v then d0 else <["published_at" := py_None]> d0
               | None => <["published_at" := py_None]> d0
               end) as Hclean.
  { intros d0 Hid. unfold clean_document. rewrite (delete_id d0 "_id") by done.
    destruct (d0 !! "published_at") as [v|]; cbn; [|by rewrite Hnone].
    by destruct (py_truth v). }
  assert (clean_document py_None py_truth d =
            clean_document py_None py_truth (delete "_id" d)) as Hdel.
  { unfold clean_document. by rewrite delete_delete_eq. }
  assert (delete "_id" d !! "published_at" = d !! "published_at") as Hpub
    by (by rewrite lookup_delete_ne).
  rewrite Hdel. rewrite (Hclean (delete "_id" d)) by apply lookup_delete_eq.
  rewrite Hpub.
  destruct (d !! "published_at") as [v|] eqn:Hv; [destruct (py_truth v) eqn:Ht|].
  - split; [apply lookup_delete_eq|]. split; [by rewrite Hpub|].
    split; [intros k Hk _; by rewrite lookup_delete_ne|].
    rewrite (Hclean (delete "_id" d)) by apply lookup_delete_eq.
    by rewrite Hpub, Ht.
  - split; [by rewrite lookup_insert_ne, lookup_delete_eq|].
    split; [by rewrite lookup_insert_eq|].
    split; [intros k Hk Hp; by rewrite lookup_insert_ne, lookup_delete_ne|].
    rewrite Hclean by (by rewrite lookup_insert_ne, lookup_delete_eq).
    rewrite lookup_insert_eq, Hnone. by rewrite insert_insert_eq.
  - split; [by rewrite lookup_insert_ne, lookup_delete_eq|].
    split; [by rewrite lookup_insert_eq|].
    split; [intros k Hk Hp; by rewrite lookup_insert_ne, lookup_delete_ne|].
    rewrite Hclean by (by rewrite lookup_insert_ne, lookup_delete_eq).
    rewrite lookup_insert_eq, Hnone. by rewrite insert_insert_eq.
Qed.

Lemma clean_document_normalises_witness :
  truthy VNone = false ∧
  clean_document VNone truthy sample_blog_document !! "_id" = None ∧
  clean_document VNone truthy sample_blog_document !! "published_at" = Some VNone ∧
  clean_document VNone truthy sample_blog_document !! "title"
    = Some (VStr "Hello").
Proof.
  split; [reflexivity|].
  destruct (clean_document_normalises VNone truthy sample_blog_document eq_refl)
    as (Hid & Hpub & Hother & _).
  split; [exact Hid|]. split.
  - rewrite Hpub. vm_compute. reflexivity.
  - rewrite (Hother "title") by discriminate. vm_compute. reflexivity.
Defined.

(** [list_blog] answers with one post for each document [get_documents]
    found, in the same order, each the validation of the cleaned document,
    or with nothing: the first document that fails the validation ends the
    request in the error of that document, and an error of [get_documents]
    ends it as well. Beyond what [get_documents] did, the world is as it
    was. *)
Theorem list_blog_all_or_nothing {V : Type} (py_None : V) (py_truth : V -> bool)
    (get_documents : string -> gmap string V -> nat -> M (list (gmap string V)))
    (BlogPost_validate : gmap string V -> outcome BlogPost.t) (w : World) :
  (forall docs w1 posts,
      get_documents "blogpost" ∅ 20 w = (Return docs, w1) ->
      Forall2 (fun d p => BlogPost_validate (clean_document py_None py_truth d)
                          = Return p) docs posts ->
      list_blog py_None py_truth get_documents BlogPost_validate w
        = (Return posts, w1) ∧ length posts = length docs) ∧
  (forall good d bad w1 posts e,
      get_documents "blogpost" ∅ 20 w = (Return (good ++ d :: bad), w1) ->
      Forall2 (fun d p => BlogPost_validate (clean_document py_None py_truth d)
                          = Return p) good posts ->
      BlogPost_validate (clean_document py_None py_truth d) = Raise e ->
      list_blog py_None py_truth get_documents BlogPost_validate w
        = (Raise e, w1)) ∧
  (forall e w1,
      get_documents "blogpost" ∅ 20 w = (Raise e, w1) ->
      list_blog py_None py_truth get_documents BlogPost_validate w
        = (Raise e, w1)).
Proof.
  split; [|split].
  - intros docs w1 posts Hdocs Hall. unfold list_blog.
    cbv [mbind M_bind]. rewrite Hdocs.
    rewrite (proj1 (list_blog_loop_run py_None py_truth BlogPost_validate
                      docs [] w1) posts Hall).
    split; [done|]. symmetry. by eapply Forall2_length.
  - intros good d bad w1 posts e Hdocs Hall Hbad. unfold list_blog.
    cbv [mbind M_bind]. rewrite Hdocs.
    exact (proj2 (list_blog_loop_run py_None py_truth BlogPost_validate
                    _ [] w1) good d bad posts e eq_refl Hall Hbad).
  - intros e w1 Hdocs. unfold list_blog. cbv [mbind M_bind]. by rewrite Hdocs.
Qed.

Lemma list_blog_all_or_nothing_witness :
  list_blog VNone truthy sample_get_documents sample_validate sample_world
    = (Raise ValueError, sample_world).
Proof.
  apply (proj1 (proj2 (list_blog_all_or_nothing VNone truthy sample_get_documents
                         sample_validate sample_world))
           [sample_blog_document] {[ "slug" := VStr "untitled" ]} [] sample_world
           [{| BlogPost.title := "Hello"; BlogPost.slug := "Hello";
               BlogPost.excerpt := EmptyString; BlogPost.content := EmptyString;
               BlogPost.cover_image := None; BlogPost.tags := [];
               BlogPost.published_at := None; BlogPost.author := None |}]
           ValueError).
  - reflexivity.
  - repeat constructor.
  - vm_compute. reflexivity.
Defined.
